(** * ceam: layered configuration store and event dispatch

    A shallow embedding of [ceam/config_tree.py] (classes [ConfigNode] and
    [ConfigTree]) and of [ceam/framework/event.py] (classes [Event],
    [_EventChannel] and [EventManager]), followed by the properties proved
    about them.

    Conventions of the embedding:
    - a Python call either returns or raises: [result A] is [Ok a] or
      [Raise e]; the state reached when an exception escapes is not tracked;
    - the [_layers] lists of [ConfigTree] objects are mutable Python lists
      that several trees may refer to ([get_from_layer] hands the parent's
      list object to the child it creates), so trees hold a location into a
      store of lists; the third outcome [Invalid] is returned when a tree
      refers to a location the store does not hold, which no Python state
      does;
    - a [ConfigNode] made by a tree always receives [list(self._layers)], a
      list no other object refers to: a node holds its list by value;
    - the [_values] dict of a node is only looked up, written and deleted by
      key: a [gmap]; the [_children] dict of a tree is iterated, so it is an
      association list in insertion order with unique keys;
    - listeners act on a state of the simulation that the embedding leaves
      abstract; [setup_components], which relies on the markers of
      [framework/util.py], and [loads]/[load], which rely on the YAML
      parser, are not part of the embedding. *)

From Stdlib Require Import ZArith Ascii String List Bool Lia Permutation Sorted.
From stdpp Require Import base option list gmap strings.

Local Open Scope list_scope.
Set Warnings "-register-all".

(** ** Python values, exceptions and results *)

Inductive exn : Type :=
| KeyError | TypeError | ValueError | IndexError | AttributeError.

Inductive result (A : Type) : Type :=
| Ok (a : A)
| Raise (e : exn)
| Invalid.
Arguments Ok {A} a.
Arguments Raise {A} e.
Arguments Invalid {A}.

(** Sequencing: the first exception aborts what follows. *)
#[global] Instance result_bind : MBind result := fun A B k r =>
  match r with
  | Ok a => k a
  | Raise e => Raise e
  | Invalid => Invalid
  end.

(** The values handed to the configuration store; [VDict] is a Python
    [dict] with string keys, in iteration order. *)
Inductive pyval : Type :=
| VNone
| VBool (b : bool)
| VInt (z : Z)
| VStr (s : string)
| VList (l : list pyval)
| VDict (d : list (string * pyval)).

(** [isinstance(value, dict)] *)
Definition is_dict (v : pyval) : bool :=
  match v with VDict _ => true | _ => false end.

(** A layer argument is [None] or a string; [if layer:] holds for a
    non-empty string only. *)
Definition truthy (layer : option string) : bool :=
  match layer with
  | Some s => negb (String.eqb s "")
  | None => false
  end.

(** [l[-1]] *)
Definition last_item {A} (l : list A) : result A :=
  match last l with
  | Some x => Ok x
  | None => Raise IndexError
  end.

(** [l.remove(x)]: removes the first occurrence, [ValueError] when absent. *)
Fixpoint list_remove (x : string) (l : list string) : result (list string) :=
  match l with
  | [] => Raise ValueError
  | y :: r =>
      if String.eqb y x then Ok r
      else r' ← list_remove x r; Ok (y :: r')
  end.

(** ** ConfigNode *)

Module ConfigNode.

(** [_values[layer] = (source, value)] *)
Definition entry : Type := option string * pyval.

Record t : Type := mk {
  layers : list string;
  values : gmap string entry;
  frozen : bool
}.

(** [__init__(self, layers=None)] *)
Definition init (ls : list string) : t :=
  mk (match ls with [] => ["base"] | _ => ls end) ∅ false.

Definition freeze (n : t) : t := mk (layers n) (values n) true.

(** The loop of [get_value_with_source] over an already reversed list. *)
Fixpoint scan (ls : list string) (vs : gmap string entry) : option entry :=
  match ls with
  | [] => None
  | l :: r =>
      match vs !! l with
      | Some e => Some e
      | None => scan r vs
      end
  end.

Definition get_value_with_source (n : t) (layer : option string) : result entry :=
  if truthy layer then
    match values n !! default "" layer with
    | Some e => Ok e
    | None => Raise KeyError
    end
  else
    match scan (reverse (layers n)) (values n) with
    | Some e => Ok e
    | None => Raise KeyError
    end.

Definition get_value (n : t) (layer : option string) : result pyval :=
  e ← get_value_with_source n layer; Ok (snd e).

Record record : Type := mkrecord {
  r_layer : string;
  r_value : pyval;
  r_source : option string;
  r_default : bool
}.

(** The loop of [metadata]; [lst] is [self._layers[-1]], which exists
    whenever the loop body runs. *)
Fixpoint metadata_loop (lst : option string) (ls : list string)
    (vs : gmap string entry) : list record :=
  match ls with
  | [] => []
  | l :: r =>
      match vs !! l with
      | Some (src, v) =>
          mkrecord l v src (bool_decide (Some l = lst)) :: metadata_loop lst r vs
      | None => metadata_loop lst r vs
      end
  end.

Definition metadata (n : t) : list record :=
  metadata_loop (last (layers n)) (layers n) (values n).

Definition set_value (n : t) (value : pyval) (layer source : option string) : result t :=
  if frozen n then Raise TypeError
  else
    l ← (if truthy layer then Ok (default "" layer) else last_item (layers n));
    Ok (mk (layers n) (<[l := (source, value)]> (values n)) (frozen n)).

Definition reset_layer (n : t) (layer : string) : result t :=
  match values n !! layer with
  | Some _ => Ok (mk (layers n) (delete layer (values n)) (frozen n))
  | None => Raise KeyError
  end.

Definition drop_layer (n : t) (layer : string) : result t :=
  n1 ← reset_layer n layer;
  ls ← list_remove layer (layers n1);
  Ok (mk ls (values n1) (frozen n1)).

End ConfigNode.

(** ** The store of layer lists shared between trees *)

Abbreviation loc := nat (only parsing).
Abbreviation store := (list (list string)) (only parsing).

(** A new list object. *)
Definition alloc (h : store) (ls : list string) : store * loc :=
  (h ++ [ls], length h).

Definition deref (h : store) (l : loc) : result (list string) :=
  match h !! l with
  | Some ls => Ok ls
  | None => Invalid
  end.

(** [s.partition('.')], without the separator. *)
Fixpoint partition_dot (s : string) : string * string :=
  match s with
  | EmptyString => ("", "")
  | String c r =>
      if Ascii.eqb c "."%char then ("", r)
      else let '(hd, tl) := partition_dot r in (String c hd, tl)
  end.

(** [s.split('.')] *)
Fixpoint split_dot (s : string) : list string :=
  match s with
  | EmptyString => [""]
  | String c r =>
      if Ascii.eqb c "."%char then "" :: split_dot r
      else match split_dot r with
           | hd :: tl => String c hd :: tl
           | [] => [String c ""]
           end
  end.

(** ** ConfigTree *)

Module ConfigTree.

Inductive t : Type :=
| mk (layers : loc) (children : list (string * child)) (frozen : bool)
with child : Type :=
| Node (n : ConfigNode.t)
| Tree (c : t).

Definition layers (x : t) : loc := let 'mk l _ _ := x in l.
Definition children (x : t) : list (string * child) := let 'mk _ cs _ := x in cs.
Definition frozen (x : t) : bool := let 'mk _ _ f := x in f.

(** [self._children[name]], when [name in self._children] *)
Fixpoint lookup (name : string) (cs : list (string * child)) : option child :=
  match cs with
  | [] => None
  | (k, c) :: r => if String.eqb k name then Some c else lookup name r
  end.

(** [self._children[name] = c]: an existing key keeps its place, a new
    key goes last. *)
Fixpoint assign (name : string) (c : child) (cs : list (string * child))
    : list (string * child) :=
  match cs with
  | [] => [(name, c)]
  | (k, c0) :: r =>
      if String.eqb k name then (k, c) :: r else (k, c0) :: assign name c r
  end.

(** [ConfigTree(layers=l)] for a list object [l] that is shared with the
    caller unless it is empty. *)
Definition new_shared (h : store) (l : loc) : result (store * t) :=
  ls ← deref h l;
  match ls with
  | [] => let '(h', l') := alloc h ["base"] in Ok (h', mk l' [] false)
  | _ => Ok (h, mk l [] false)
  end.

(** [ConfigTree(layers=list(self._layers))] *)
Definition new_copy (h : store) (l : loc) : result (store * t) :=
  ls ← deref h l;
  let '(h', l') := alloc h (match ls with [] => ["base"] | _ => ls end) in
  Ok (h', mk l' [] false).

Fixpoint freeze (x : t) : t :=
  match x with
  | mk l cs _ =>
      mk l (map (fun kc => (fst kc,
                            match snd kc with
                            | Node n => Node (ConfigNode.freeze n)
                            | Tree c => Tree (freeze c)
                            end)) cs) true
  end.

Definition contains (x : t) (name : string) : bool :=
  match lookup name (children x) with Some _ => true | None => false end.

(** What a name-based read gives back: a value, or the child tree. *)
Inductive ret : Type :=
| RVal (v : pyval)
| RTree (c : t).

Definition get_from_layer (h : store) (x : t) (name : string)
    (layer : option string) : result (store * t * ret) :=
  match lookup name (children x) with
  | None =>
      if frozen x then Raise KeyError
      else
        '(h', c) ← new_shared h (layers x);
        Ok (h', mk (layers x) (assign name (Tree c) (children x)) (frozen x), RTree c)
  | Some (Node n) => v ← ConfigNode.get_value n layer; Ok (h, x, RVal v)
  | Some (Tree c) => Ok (h, x, RTree c)
  end.

(** [__getattr__(self, name)]. Python calls it for an attribute read only
    when the normal lookup does not find [name]: not for [_layers],
    [_children], [_frozen] or the name of a method. *)
Definition getattr (h : store) (x : t) (name : string) : result (store * t * ret) :=
  get_from_layer h x name None.

Fixpoint set_with_metadata (value : pyval) (h : store) (x : t) (name : string)
    (layer source : option string) {struct value} : result (store * t) :=
  if frozen x then Raise TypeError
  else
    match value with
    | VDict d =>
        '(h1, c) ← match lookup name (children x) with
                   | Some (Tree c) => Ok (h, c)
                   | _ => new_copy h (layers x)
                   end;
        '(h2, c') ← (fix items (d : list (string * pyval)) (h : store) (c : t)
                         : result (store * t) :=
                       match d with
                       | [] => Ok (h, c)
                       | (k, v) :: d' =>
                           '(h', c') ← set_with_metadata v h c k layer source;
                           items d' h' c'
                       end) d h1 c;
        Ok (h2, mk (layers x) (assign name (Tree c') (children x)) (frozen x))
    | _ =>
        n ← match lookup name (children x) with
            | Some (Node n) => Ok n
            | _ => ls ← deref h (layers x); Ok (ConfigNode.init ls)
            end;
        n' ← ConfigNode.set_value n value layer source;
        Ok (h, mk (layers x) (assign name (Node n') (children x)) (frozen x))
    end.

Fixpoint read_dict (d : list (string * pyval)) (h : store) (x : t)
    (layer source : option string) : result (store * t) :=
  match d with
  | [] => Ok (h, x)
  | (k, v) :: d' =>
      '(h', x') ← set_with_metadata v h x k layer source;
      read_dict d' h' x' layer source
  end.

Definition setattr (h : store) (x : t) (name : string) (value : pyval)
    : result (store * t) :=
  set_with_metadata value h x name None None.

(** [__init__(self, data=None, layers=None)] *)
Definition init (h : store) (data : option (list (string * pyval)))
    (ls : option loc) : result (store * t) :=
  '(h1, x) ← match ls with
             | None => let '(h', l') := alloc h ["base"] in Ok (h', mk l' [] false)
             | Some l => new_shared h l
             end;
  match data with
  | Some ((_ :: _) as d) =>
      cur ← deref h1 (layers x);
      match cur with
      | l0 :: _ => read_dict d h1 x (Some l0) (Some "initial data")
      | [] => Raise IndexError
      end
  | _ => Ok (h1, x)
  end.

Fixpoint metadata (x : t) (key : option string) : result (list ConfigNode.record) :=
  match key with
  | None => Raise AttributeError
  | Some k =>
      match lookup k (children x) with
      | Some _ =>
          (fix find (cs : list (string * child)) :=
             match cs with
             | [] => Raise KeyError
             | (k', c) :: r =>
                 if String.eqb k' k then
                   match c with
                   | Node n => Ok (ConfigNode.metadata n)
                   | Tree c' => metadata c' None
                   end
                 else find r
             end) (children x)
      | None =>
          let '(hd, tl) := partition_dot k in
          (fix find (cs : list (string * child)) :=
             match cs with
             | [] => Raise KeyError
             | (k', c) :: r =>
                 if String.eqb k' hd then
                   match c with
                   | Node n => Raise TypeError
                   | Tree c' => metadata c' (Some tl)
                   end
                 else find r
             end) (children x)
      end
  end.

Fixpoint _reset_layer (x : t) (layer : string) (preserve_keys : list (list string))
    (prefix : list string) : result t :=
  match x with
  | mk l cs f =>
      cs' ← (fix loop (cs : list (string * child)) : result (list (string * child)) :=
               match cs with
               | [] => Ok []
               | (key, c) :: r =>
                   c' ← (if bool_decide (prefix ++ [key] ∈ preserve_keys) then Ok c
                         else match c with
                              | Tree c0 =>
                                  c1 ← _reset_layer c0 layer preserve_keys (prefix ++ [key]);
                                  Ok (Tree c1)
                              | Node n => n' ← ConfigNode.reset_layer n layer; Ok (Node n')
                              end);
                   r' ← loop r;
                   Ok ((key, c') :: r')
               end) cs;
      Ok (mk l cs' f)
  end.

Definition reset_layer (x : t) (layer : string) (preserve_keys : list string)
    : result t :=
  _reset_layer x layer (map split_dot preserve_keys) [].

Fixpoint drop_layer (h : store) (x : t) (layer : string) {struct x}
    : result (store * t) :=
  match x with
  | mk l cs f =>
      '(h1, cs') ← (fix loop (cs : list (string * child)) (h : store)
                        : result (store * list (string * child)) :=
                      match cs with
                      | [] => Ok (h, [])
                      | (key, c) :: r =>
                          '(h', c') ← match c with
                                      | Tree c0 =>
                                          '(h', c1) ← drop_layer h c0 layer;
                                          Ok (h', Tree c1)
                                      | Node n =>
                                          n' ← ConfigNode.drop_layer n layer;
                                          Ok (h, Node n')
                                      end;
                          '(h'', r') ← loop r h';
                          Ok (h'', (key, c') :: r')
                      end) cs h;
      ls ← deref h1 l;
      ls' ← list_remove layer ls;
      Ok (<[l := ls']> h1, mk l cs' f)
  end.

Definition len (x : t) : nat := length (children x).

End ConfigTree.

(** The loops over [self._children] of [drop_layer] and [_reset_layer], and
    what [freeze] does to one child, as functions of their own; the
    properties section shows that the loops inside [ConfigTree.drop_layer]
    and [ConfigTree._reset_layer] are these. *)
Fixpoint drop_children (layer : string) (cs : list (string * ConfigTree.child))
    (h : store) : result (store * list (string * ConfigTree.child)) :=
  match cs with
  | [] => Ok (h, [])
  | (key, c) :: r =>
      '(h', c') ← match c with
                  | ConfigTree.Tree c0 =>
                      '(h', c1) ← ConfigTree.drop_layer h c0 layer;
                      Ok (h', ConfigTree.Tree c1)
                  | ConfigTree.Node n =>
                      n' ← ConfigNode.drop_layer n layer;
                      Ok (h, ConfigTree.Node n')
                  end;
      '(h'', r') ← drop_children layer r h';
      Ok (h'', (key, c') :: r')
  end.

Fixpoint reset_children (layer : string) (preserve_keys : list (list string))
    (prefix : list string) (cs : list (string * ConfigTree.child))
    : result (list (string * ConfigTree.child)) :=
  match cs with
  | [] => Ok []
  | (key, c) :: r =>
      c' ← (if bool_decide (prefix ++ [key] ∈ preserve_keys) then Ok c
            else match c with
                 | ConfigTree.Tree c0 =>
                     c1 ← ConfigTree._reset_layer c0 layer preserve_keys (prefix ++ [key]);
                     Ok (ConfigTree.Tree c1)
                 | ConfigTree.Node n =>
                     n' ← ConfigNode.reset_layer n layer; Ok (ConfigTree.Node n')
                 end);
      r' ← reset_children layer preserve_keys prefix r;
      Ok ((key, c') :: r')
  end.

Definition freeze_child (c : ConfigTree.child) : ConfigTree.child :=
  match c with
  | ConfigTree.Node n => ConfigTree.Node (ConfigNode.freeze n)
  | ConfigTree.Tree c => ConfigTree.Tree (ConfigTree.freeze c)
  end.

(** ** Events *)

Module Event.

(** [time] is [None] for an event-shaped object of another class that has
    no [time] attribute, [Some None] after [Event.__init__], and
    [Some (Some t)] once stamped. *)
Record t : Type := mk {
  index : list Z;
  user_data : pyval;
  time : option (option Z)
}.

Definition init (idx : list Z) (ud : pyval) : t := mk idx ud (Some None).

Definition split (e : t) (new_index : list Z) : result t :=
  match time e with
  | Some tm => Ok (mk new_index (user_data e) (Some tm))
  | None => Raise AttributeError
  end.

End Event.

(** [l[i]] on a list of length [len]: the position read, counted from the
    end for a negative [i]. *)
Definition py_index (len : nat) (i : Z) : result nat :=
  if (0 <=? i)%Z then
    if (i <? Z.of_nat len)%Z then Ok (Z.to_nat i) else Raise IndexError
  else
    if (- Z.of_nat len <=? i)%Z then Ok (Z.to_nat (i + Z.of_nat len)) else Raise IndexError.

(** [if hasattr(event, 'time'): event.time = self.manager.clock()]; the
    manager has no [clock] attribute before [setup]. *)
Definition stamp (clock : option (unit -> Z)) (ev : Event.t) : result Event.t :=
  match Event.time ev with
  | Some _ =>
      match clock with
      | Some c => Ok (Event.mk (Event.index ev) (Event.user_data ev) (Some (Some (c tt))))
      | None => Raise AttributeError
      end
  | None => Ok ev
  end.

Section Events.

(** The state the listeners act on; it holds neither the channels nor the
    manager. *)
Context {W : Type}.

(** A listener: a callable with a [__name__]; [ident] tells apart two
    callables that carry the same name. *)
Record Listener : Type := mkListener {
  name : string;
  ident : nat;
  call : Event.t -> W -> result W
}.

(** [sorted(bucket, key=lambda x: x.__name__)]: a stable sort, so equal
    names stay in the order of the bucket. *)
Fixpoint insert_by_name (x : Listener) (l : list Listener) : list Listener :=
  match l with
  | [] => [x]
  | y :: r =>
      if String.leb (name x) (name y) then x :: y :: r
      else y :: insert_by_name x r
  end.

Fixpoint sorted_by_name (l : list Listener) : list Listener :=
  match l with
  | [] => []
  | x :: r => insert_by_name x (sorted_by_name r)
  end.

(** [_EventChannel]; the back reference to the manager is only used to
    read its clock, which [emit] receives. *)
Record EventChannel : Type := mkChannel {
  listeners : list (list Listener)
}.

Definition channel_init : EventChannel := mkChannel (replicate 10 []).

(** [for listener in ...: listener(event)] *)
Fixpoint call_all (ls : list Listener) (ev : Event.t) (w : W) : result W :=
  match ls with
  | [] => Ok w
  | l :: r => w' ← call l ev w; call_all r ev w'
  end.

(** [for priority_bucket in self.listeners: ...] *)
Fixpoint emit_buckets (bs : list (list Listener)) (ev : Event.t) (w : W) : result W :=
  match bs with
  | [] => Ok w
  | b :: r => w' ← call_all (sorted_by_name b) ev w; emit_buckets r ev w'
  end.

Definition emit (clock : option (unit -> Z)) (ch : EventChannel)
    (ev : Event.t) (w : W) : result (Event.t * W) :=
  ev' ← stamp clock ev;
  w' ← emit_buckets (listeners ch) ev' w;
  Ok (ev', w').

(** The listeners [emit] calls, in the order of the calls. *)
Definition emit_order (ch : EventChannel) : list Listener :=
  concat (map sorted_by_name (listeners ch)).

(** [EventManager]: [__event_types] is a [defaultdict], in insertion
    order; [clock] is unset until [setup]. *)
Record EventManager : Type := mkManager {
  event_types : list (string * EventChannel);
  clock : option (unit -> Z)
}.

Definition manager_init : EventManager := mkManager [] None.

Definition setup (m : EventManager) (c : unit -> Z) : EventManager :=
  mkManager (event_types m) (Some c).

Fixpoint find_channel (nm : string) (cs : list (string * EventChannel))
    : option EventChannel :=
  match cs with
  | [] => None
  | (k, ch) :: r => if String.eqb k nm then Some ch else find_channel nm r
  end.

Fixpoint store_channel (nm : string) (ch : EventChannel)
    (cs : list (string * EventChannel)) : list (string * EventChannel) :=
  match cs with
  | [] => [(nm, ch)]
  | (k, c0) :: r =>
      if String.eqb k nm then (k, ch) :: r else (k, c0) :: store_channel nm ch r
  end.

(** [self.__event_types[name]]: a missing channel is created. *)
Definition channel (m : EventManager) (nm : string) : EventManager * EventChannel :=
  match find_channel nm (event_types m) with
  | Some ch => (m, ch)
  | None => (mkManager (event_types m ++ [(nm, channel_init)]) (clock m), channel_init)
  end.

(** The emitter handed out is the [emit] method bound to the channel
    object: it is represented by the channel's name and called through
    [call_emitter] on the manager's current state. *)
Definition get_emitter (m : EventManager) (nm : string) : EventManager * string :=
  (fst (channel m nm), nm).

Definition call_emitter (m : EventManager) (emitter : string)
    (ev : Event.t) (w : W) : result (Event.t * W) :=
  match find_channel emitter (event_types m) with
  | Some ch => emit (clock m) ch ev w
  | None => Invalid
  end.

Definition register_listener (m : EventManager) (nm : string) (l : Listener)
    (priority : Z) : result EventManager :=
  let '(m1, ch) := channel m nm in
  i ← py_index (length (listeners ch)) priority;
  Ok (mkManager
        (store_channel nm (mkChannel (alter (fun b => b ++ [l]) i (listeners ch)))
           (event_types m1))
        (clock m1)).

(** Registrations one after the other, each [(priority, listener)]. *)
Fixpoint register_all (m : EventManager) (nm : string)
    (regs : list (Z * Listener)) : result EventManager :=
  match regs with
  | [] => Ok m
  | (p, l) :: r => m' ← register_listener m nm l p; register_all m' nm r
  end.

Definition list_events (m : EventManager) : list string :=
  map fst (event_types m).

End Events.

Arguments Listener : clear implicits.
Arguments EventChannel : clear implicits.
Arguments EventManager : clear implicits.

(** ** Scenarios and notions used by the statements *)

(** A tree declared with layers ["override", "base"], then
    [set_with_metadata("x", 1, layer="base", source="defaults")] and
    [set_with_metadata("x", 2, layer="override", source="cli")]. *)
Definition layered_tree : result (store * ConfigTree.t) :=
  '(h, x) ← ConfigTree.init [["override"; "base"]] None (Some 0);
  '(h, x) ← ConfigTree.set_with_metadata (VInt 1) h x "x" (Some "base") (Some "defaults");
  ConfigTree.set_with_metadata (VInt 2) h x "x" (Some "override") (Some "cli").

(** The tree of [layered_tree], written out. *)
Definition scenario_root : ConfigTree.t :=
  ConfigTree.mk 0
    [("x", ConfigTree.Node
             (ConfigNode.mk ["override"; "base"]
                (<["override" := (Some "cli", VInt 2)]>
                   (<["base" := (Some "defaults", VInt 1)]> ∅)) false))] false.

(** A tree declared with layers ["base", "override"] in which "x" holds 5
    at "override", written by
    [set_with_metadata("x", 5, layer="override", source="cli")]. *)
Definition overridden_tree : result (store * ConfigTree.t) :=
  '(h, x) ← ConfigTree.init [["base"; "override"]] None (Some 0);
  ConfigTree.set_with_metadata (VInt 5) h x "x" (Some "override") (Some "cli").

(** A tree declared with layers ["base", "clinical"] in which "rate" holds
    a value in both layers. *)
Definition clinical_root : ConfigTree.t :=
  ConfigTree.mk 0
    [("rate", ConfigTree.Node
                (ConfigNode.mk ["base"; "clinical"]
                   (<["clinical" := (Some "trial", VInt 2)]>
                      (<["base" := (Some "defaults", VInt 1)]> ∅)) false))] false.

(** The state after [cfg.a.b = 1] on a new tree with layers
    ["base", "clinical"] followed by a write of [b] at "clinical": the read
    of [a] created the child on the list object of the root. *)
Definition shared_root : ConfigTree.t :=
  ConfigTree.mk 0
    [("a", ConfigTree.Tree
             (ConfigTree.mk 0
                [("b", ConfigTree.Node
                         (ConfigNode.mk ["base"; "clinical"]
                            (<["clinical" := (None, VInt 2)]>
                               (<["base" := (None, VInt 1)]> ∅)) false))] false))] false.

(** A new tree loaded with the mapping [{"a": {"b": 1}, "n": 2}]: "a" is
    bound to a child tree and "n" to a node. *)
Definition mixed_tree : result (store * ConfigTree.t) :=
  '(h, x) ← ConfigTree.init [] None None;
  ConfigTree.read_dict [("a", VDict [("b", VInt 1)]); ("n", VInt 2)] h x None None.

(** The tree of [mixed_tree], written out; its store is
    [[["base"]; ["base"]]]. *)
Definition mixed_root : ConfigTree.t :=
  ConfigTree.mk 0
    [("a", ConfigTree.Tree
             (ConfigTree.mk 1
                [("b", ConfigTree.Node
                         (ConfigNode.mk ["base"] (<["base" := (None, VInt 1)]> ∅) false))]
                false));
     ("n", ConfigTree.Node
             (ConfigNode.mk ["base"] (<["base" := (None, VInt 2)]> ∅) false))] false.

(** [mixed_tree] followed by [cfg.freeze()]. *)
Definition frozen_tree : result (store * ConfigTree.t) :=
  '(h, x) ← mixed_tree;
  Ok (h, ConfigTree.freeze x).

(** Every channel of a manager has the ten buckets [_EventChannel.__init__]
    gives it. *)
Definition ten_buckets {W} (m : EventManager W) : Prop :=
  Forall (fun kc => length (listeners (snd kc)) = 10) (event_types m).

(** A listener that returns without touching the state. *)
Definition quiet (nm : string) (id : nat) : Listener unit :=
  mkListener nm id (fun _ w => Ok w).

(** The object reached from a tree by following child names:
    [x._children[k1]._children[k2]...]. *)
Fixpoint descend (x : ConfigTree.t) (path : list string) : option ConfigTree.child :=
  match path with
  | [] => Some (ConfigTree.Tree x)
  | k :: rest =>
      match ConfigTree.lookup k (ConfigTree.children x) with
      | Some (ConfigTree.Tree c) => descend c rest
      | Some (ConfigTree.Node n) =>
          match rest with [] => Some (ConfigTree.Node n) | _ => None end
      | None => None
      end
  end.

(** The chained read [x.k1.k2...get_from_layer(kn, layer)]: every step but
    the last is an attribute read, and an attribute read on a value that is
    not a tree raises. *)
Fixpoint read_path (h : store) (x : ConfigTree.t) (path : list string)
    (layer : option string) : result ConfigTree.ret :=
  match path with
  | [] => Ok (ConfigTree.RTree x)
  | k :: rest =>
      match rest with
      | [] => '(_, _, r) ← ConfigTree.get_from_layer h x k layer; Ok r
      | _ =>
          '(h', _, r) ← ConfigTree.getattr h x k;
          match r with
          | ConfigTree.RTree c => read_path h' c rest layer
          | ConfigTree.RVal _ => Raise AttributeError
          end
      end
  end.

(** The leaves of a nested mapping with the path of keys that leads to
    each; a value that is not a mapping is its own leaf, at the empty
    path. *)
Fixpoint leaves (v : pyval) : list (list string * pyval) :=
  match v with
  | VDict d =>
      (fix go (d : list (string * pyval)) : list (list string * pyval) :=
         match d with
         | [] => []
         | (k, w) :: r => map (fun pw => (k :: fst pw, snd pw)) (leaves w) ++ go r
         end) d
  | _ => [([], v)]
  end.

(** The keys of a Python dict are distinct, at every level. *)
Fixpoint unique_keys (v : pyval) : bool :=
  match v with
  | VDict d =>
      bool_decide (NoDup (map fst d)) &&
      (fix go (d : list (string * pyval)) : bool :=
         match d with
         | [] => true
         | (_, w) :: r => unique_keys w && go r
         end) d
  | _ => true
  end.

(** Nothing in the tree is frozen, every tree refers to a list of the
    store (of [len] lists) and every node still declares a layer. *)
Fixpoint writable (len : nat) (x : ConfigTree.t) : bool :=
  match x with
  | ConfigTree.mk l cs f =>
      negb f && bool_decide (l < len) &&
      forallb (fun kc =>
                 match snd kc with
                 | ConfigTree.Node n =>
                     negb (ConfigNode.frozen n) &&
                     match ConfigNode.layers n with [] => false | _ => true end
                 | ConfigTree.Tree c => writable len c
                 end) cs
  end.

Definition child_writable (len : nat) (c : ConfigTree.child) : bool :=
  match c with
  | ConfigTree.Node n =>
      negb (ConfigNode.frozen n) &&
      match ConfigNode.layers n with [] => false | _ => true end
  | ConfigTree.Tree c => writable len c
  end.

(** [descend] from a child. *)
Definition descend_child (c : ConfigTree.child) (path : list string)
    : option ConfigTree.child :=
  match c with
  | ConfigTree.Tree x => descend x path
  | ConfigTree.Node n => match path with [] => Some c | _ => None end
  end.

(** Every leaf of [v] is found under the child [c], in a node that gives
    the leaf and [source] when read with [layer]. *)
Definition holds (layer source : option string) (v : pyval) (c : ConfigTree.child) : Prop :=
  forall (p : list string) (w : pyval),
    (p, w) ∈ leaves v ->
    exists n, descend_child c p = Some (ConfigTree.Node n) /\
              ConfigNode.get_value_with_source n layer = Ok (source, w).

(** What a write of [v] under a name does on a writable tree: it returns,
    leaves the tree writable, leaves the other names alone and stores every
    leaf of [v]. *)
Definition write_spec (v : pyval) : Prop :=
  forall (h : store) (x : ConfigTree.t) (k : string) (layer source : option string),
    writable (length h) x = true ->
    exists h' x',
      ConfigTree.set_with_metadata v h x k layer source = Ok (h', x') /\
      writable (length h') x' = true /\
      length h <= length h' /\
      (forall k', k' <> k ->
         ConfigTree.lookup k' (ConfigTree.children x') =
         ConfigTree.lookup k' (ConfigTree.children x)) /\
      exists c,
        ConfigTree.lookup k (ConfigTree.children x') = Some c /\
        (unique_keys v = true -> holds layer source v c).

Definition read_spec (d : list (string * pyval)) : Prop :=
  forall (h : store) (x : ConfigTree.t) (layer source : option string),
    writable (length h) x = true ->
    exists h' x',
      ConfigTree.read_dict d h x layer source = Ok (h', x') /\
      writable (length h') x' = true /\
      length h <= length h' /\
      (forall k', k' ∉ map fst d ->
         ConfigTree.lookup k' (ConfigTree.children x') =
         ConfigTree.lookup k' (ConfigTree.children x)) /\
      (unique_keys (VDict d) = true ->
       forall k v, (k, v) ∈ d ->
         exists c, ConfigTree.lookup k (ConfigTree.children x') = Some c /\
                   holds layer source v c).

(** The list objects the trees of [x] refer to, one entry per tree. *)
Fixpoint tree_locs (x : ConfigTree.t) : list loc :=
  match x with
  | ConfigTree.mk l cs _ =>
      l :: flat_map (fun kc =>
                       match snd kc with
                       | ConfigTree.Node _ => []
                       | ConfigTree.Tree c => tree_locs c
                       end) cs
  end.

(** Every node of the tree satisfies [P]. *)
Fixpoint all_nodes (P : ConfigNode.t -> bool) (x : ConfigTree.t) : bool :=
  match x with
  | ConfigTree.mk _ cs _ =>
      forallb (fun kc =>
                 match snd kc with
                 | ConfigTree.Node n => P n
                 | ConfigTree.Tree c => all_nodes P c
                 end) cs
  end.

(** A list without the first occurrence of [x]. *)
Fixpoint remove_first (x : string) (l : list string) : list string :=
  match l with
  | [] => []
  | y :: r => if String.eqb y x then r else y :: remove_first x r
  end.

(** A node without its entry for [layer] and without the first declaration
    of [layer]. *)
Definition node_without (layer : string) (n : ConfigNode.t) : ConfigNode.t :=
  ConfigNode.mk (remove_first layer (ConfigNode.layers n))
                (delete layer (ConfigNode.values n)) (ConfigNode.frozen n).

(** The tree with every node replaced by [node_without layer]. *)
Fixpoint tree_without (layer : string) (x : ConfigTree.t) : ConfigTree.t :=
  match x with
  | ConfigTree.mk l cs f =>
      ConfigTree.mk l
        (map (fun kc => (fst kc,
                         match snd kc with
                         | ConfigTree.Node n => ConfigTree.Node (node_without layer n)
                         | ConfigTree.Tree c => ConfigTree.Tree (tree_without layer c)
                         end)) cs) f
  end.

(** The first node [drop_layer] reaches, if it reaches a node before a
    tree without children. *)
Fixpoint first_leaf (x : ConfigTree.t) : option ConfigNode.t :=
  match x with
  | ConfigTree.mk _ cs _ =>
      match cs with
      | (_, ConfigTree.Node n) :: _ => Some n
      | (_, ConfigTree.Tree c) :: _ => first_leaf c
      | [] => None
      end
  end.

(** The node declares [layer] and holds an entry for it. *)
Definition holds_layer (layer : string) (n : ConfigNode.t) : bool :=
  bool_decide (is_Some (ConfigNode.values n !! layer) /\ layer ∈ ConfigNode.layers n).

Definition child_locs (c : ConfigTree.child) : list loc :=
  match c with
  | ConfigTree.Node _ => []
  | ConfigTree.Tree c => tree_locs c
  end.

Definition child_without (layer : string) (c : ConfigTree.child) : ConfigTree.child :=
  match c with
  | ConfigTree.Node n => ConfigTree.Node (node_without layer n)
  | ConfigTree.Tree c => ConfigTree.Tree (tree_without layer c)
  end.

(** What [drop_layer] does on a tree whose trees each refer to a list of
    their own that declares [layer] and whose nodes each declare [layer] and
    hold an entry for it: it returns the tree without the layer, and in the
    store each list of the tree has lost its first [layer]. *)
Definition drop_spec (layer : string) (x : ConfigTree.t) : Prop :=
  forall h : store,
    NoDup (tree_locs x) ->
    (forall l, l ∈ tree_locs x -> exists ls, h !! l = Some ls /\ layer ∈ ls) ->
    all_nodes (holds_layer layer) x = true ->
    exists h',
      ConfigTree.drop_layer h x layer = Ok (h', tree_without layer x) /\
      length h' = length h /\
      forall l, h' !! l =
                  if decide (l ∈ tree_locs x) then remove_first layer <$> h !! l
                  else h !! l.


(** The buckets of the channel [nm], those of a new channel when the
    manager has none yet. *)
Definition buckets {W} (m : EventManager W) (nm : string) : list (list (Listener W)) :=
  listeners (snd (channel m nm)).


(** ** Notions used by the further properties *)

(** The name holds no ".". *)
Fixpoint dotless (s : string) : bool :=
  match s with
  | EmptyString => true
  | String c r => negb (Ascii.eqb c "."%char) && dotless r
  end.

(** ['.'.join(path)] *)
Fixpoint join_dots (path : list string) : string :=
  match path with
  | [] => ""
  | [k] => k
  | k :: rest => String.append k (String "."%char (join_dots rest))
  end.

(** No child name of the tree, at any depth, holds a ".". *)
Fixpoint names_dotless (x : ConfigTree.t) : bool :=
  match x with
  | ConfigTree.mk _ cs _ =>
      forallb (fun kc =>
                 dotless (fst kc) &&
                 match snd kc with
                 | ConfigTree.Node _ => true
                 | ConfigTree.Tree c => names_dotless c
                 end) cs
  end.

(** The path, met below [prefix], goes through a name that
    [_reset_layer] finds among the keys to preserve. *)
Fixpoint preserved (keys : list (list string)) (prefix path : list string) : bool :=
  match path with
  | [] => false
  | k :: rest =>
      bool_decide (prefix ++ [k] ∈ keys) || preserved keys (prefix ++ [k]) rest
  end.

(** A node without its entry for [layer]. *)
Definition node_reset (layer : string) (n : ConfigNode.t) : ConfigNode.t :=
  ConfigNode.mk (ConfigNode.layers n) (delete layer (ConfigNode.values n))
                (ConfigNode.frozen n).

(** * Properties *)

(** ** Resolution of a value in a node *)

Section NodeResolution.

Import ConfigNode.

(** Scanning the reversed list finds the entry of the declared layer of
    greatest position that has one. *)
Lemma scan_reverse_Some (ls : list string) (vs : gmap string entry) (e : entry) :
  scan (reverse ls) vs = Some e <->
  exists (i : nat) (l : string),
    ls !! i = Some l /\ vs !! l = Some e /\
    forall (j : nat) (l' : string), i < j -> ls !! j = Some l' -> vs !! l' = None.
Proof.
  induction ls as [|x r IH] using rev_ind.
  - split; [done|]. intros (i & l & Hi & _). done.
  - rewrite reverse_snoc. simpl. destruct (vs !! x) as [e'|] eqn:Hx.
    + split.
      * intros [= ->]. exists (length r), x. split_and!; [|done|].
        { by rewrite list_lookup_middle. }
        intros j l' Hj Hl'. apply lookup_lt_Some in Hl'.
        rewrite length_app in Hl'. simpl in Hl'. lia.
      * intros (i & l & Hi & Hl & Hlast).
        destruct (decide (i = length r)) as [->|Hne].
        { rewrite list_lookup_middle in Hi; [|done]. congruence. }
        assert (i < length r) as Hlt.
        { apply lookup_lt_Some in Hi. rewrite length_app in Hi. simpl in Hi. lia. }
        specialize (Hlast (length r) x Hlt).
        rewrite list_lookup_middle in Hlast; [|done].
        rewrite Hlast in Hx; done.
    + rewrite IH. split.
      * intros (i & l & Hi & Hl & Hlast). exists i, l. split_and!; [|done|].
        { rewrite lookup_app_l; [done|]. by eapply lookup_lt_Some. }
        intros j l' Hj Hl'.
        destruct (decide (j < length r)) as [Hlt|Hge].
        { rewrite lookup_app_l in Hl'; [|done]. by eapply Hlast. }
        rewrite lookup_app_r in Hl'; [|lia].
        destruct (j - length r) as [|k]; simpl in Hl'; [|done]. congruence.
      * intros (i & l & Hi & Hl & Hlast).
        destruct (decide (i < length r)) as [Hlt|Hge].
        { rewrite lookup_app_l in Hi; [|done]. exists i, l. split_and!; [done..|].
          intros j l' Hj Hl'. apply (Hlast j l' Hj).
          rewrite lookup_app_l; [done|]. by eapply lookup_lt_Some. }
        rewrite lookup_app_r in Hi; [|lia].
        destruct (i - length r) as [|k]; simpl in Hi; [|done]. congruence.
Qed.

Lemma scan_None (ls : list string) (vs : gmap string entry) :
  scan ls vs = None <-> forall l : string, l ∈ ls -> vs !! l = None.
Proof.
  induction ls as [|x r IH]; simpl.
  - split; [|done]. intros _ l Hl. by apply elem_of_nil in Hl.
  - destruct (vs !! x) as [e|] eqn:Hx.
    + split; [done|]. intros H. rewrite H in Hx; [done|]. apply list_elem_of_here.
    + rewrite IH. split.
      * intros H l Hl. apply elem_of_cons in Hl as [->|Hl]; auto.
      * intros H l Hl. apply H. by apply list_elem_of_further.
Qed.

(** C1. Called without a layer, [get_value_with_source] returns the entry
    of the last declared layer that has a stored one (the first met when
    the declared layers are scanned in reverse), raises [KeyError] exactly
    when no declared layer has a stored entry, and [get_value] returns the
    value half of that result. *)
Theorem get_value_with_source_reverse_scan (n : t) :
  (forall e : entry,
      get_value_with_source n None = Ok e <->
      exists (i : nat) (l : string),
        layers n !! i = Some l /\ values n !! l = Some e /\
        forall (j : nat) (l' : string),
          i < j -> layers n !! j = Some l' -> values n !! l' = None) /\
  (get_value_with_source n None = Raise KeyError <->
   forall l : string, l ∈ layers n -> values n !! l = None) /\
  get_value n None =
    match get_value_with_source n None with
    | Ok (_, v) => Ok v
    | Raise e => Raise e
    | Invalid => Invalid
    end.
Proof.
  unfold get_value, get_value_with_source. simpl. split_and!.
  - intros e. rewrite <- scan_reverse_Some.
    destruct (scan (reverse (layers n)) (values n)); split; congruence.
  - split.
    + destruct (scan (reverse (layers n)) (values n)) eqn:Hs; [done|].
      intros _ l Hl. eapply scan_None; [exact Hs|]. by apply elem_of_reverse.
    + intros H. assert (scan (reverse (layers n)) (values n) = None) as ->; [|done].
      apply scan_None. intros l Hl. apply H. by rewrite <- elem_of_reverse.
  - by destruct (scan (reverse (layers n)) (values n)) as [[src v]|].
Qed.

End NodeResolution.

(** ** The scenario with layers ["override", "base"] *)

Section LayeredScenario.

Import ConfigNode.

(** C2, as the code behaves. After the two writes the node of [x] holds
    both entries; read without a layer it gives [("defaults", 1)], the
    entry of "base", which is the last declared layer and so the first one
    scanned; read with [layer="base"] it gives [("defaults", 1)]; and
    [metadata] gives two records in declaration order, "override" with
    default false and "base" with default true. *)
Theorem layered_scenario_reads :
  exists (h : store) (x : ConfigTree.t) (n : ConfigNode.t),
    layered_tree = Ok (h, x) /\
    ConfigTree.lookup "x" (ConfigTree.children x) = Some (ConfigTree.Node n) /\
    get_value_with_source n None = Ok (Some "defaults", VInt 1) /\
    get_value_with_source n (Some "base") = Ok (Some "defaults", VInt 1) /\
    get_value_with_source n (Some "override") = Ok (Some "cli", VInt 2) /\
    ConfigTree.metadata x (Some "x") =
      Ok [mkrecord "override" (VInt 2) (Some "cli") false;
          mkrecord "base" (VInt 1) (Some "defaults") true] /\
    ConfigNode.metadata n =
      [mkrecord "override" (VInt 2) (Some "cli") false;
       mkrecord "base" (VInt 1) (Some "defaults") true].
Proof.
  eexists _, _, _. split; [vm_compute; reflexivity|].
  split; [vm_compute; reflexivity|].
  split_and!; vm_compute; reflexivity.
Qed.

Lemma layered_tree_root : layered_tree = Ok ([["override"; "base"]], scenario_root).
Proof. vm_compute. reflexivity. Qed.

(** C2 as stated fails: the read without a layer does not give
    [("cli", 2)]. *)
Lemma layered_scenario_not_cli :
  ~ exists (h : store) (x : ConfigTree.t) (n : ConfigNode.t),
      layered_tree = Ok (h, x) /\
      ConfigTree.lookup "x" (ConfigTree.children x) = Some (ConfigTree.Node n) /\
      get_value_with_source n None = Ok (Some "cli", VInt 2).
Proof.
  intros (h & x & n & Ht & Hn & Hv).
  vm_compute in Ht. injection Ht as <- <-.
  vm_compute in Hn. injection Hn as <-.
  vm_compute in Hv. discriminate Hv.
Qed.

End LayeredScenario.

(** ** Order of the names *)

Section NameOrder.






End NameOrder.

(** ** The stable sort of a bucket *)

Section BucketSort.

Context {W : Type}.
Implicit Types (x y : Listener W) (b l : list (Listener W)).

Lemma insert_by_name_perm x l : insert_by_name x l ≡ₚ x :: l.
Proof.
  induction l as [|y r IH]; simpl; [done|].
  destruct (String.leb (name x) (name y)); [done|].
  rewrite IH. apply Permutation_swap.
Qed.

Lemma sorted_by_name_perm l : sorted_by_name l ≡ₚ l.
Proof.
  induction l as [|x r IH]; simpl; [done|].
  by rewrite insert_by_name_perm, IH.
Qed.







Lemma emit_buckets_call_all (bs : list (list (Listener W))) ev (w : W) :
  emit_buckets bs ev w = call_all (concat (sorted_by_name <$> bs)) ev w.
Proof.
  revert w. induction bs as [|b r IH]; intros w; simpl; [done|].
  generalize (sorted_by_name b). intros l. revert w.
  induction l as [|x l IHl]; intros w; simpl; [apply IH|].
  destruct (call x ev w); simpl; [apply IHl|done..].
Qed.

End BucketSort.

(** ** Registration *)

Section Registration.

Context {W : Type}.
Implicit Types (m : EventManager W) (ch : EventChannel W) (l : Listener W).

Lemma find_store_channel nm ch (cs : list (string * EventChannel W)) :
  find_channel nm (store_channel nm ch cs) = Some ch.
Proof.
  induction cs as [|[k c0] r IH]; simpl.
  - by rewrite String.eqb_refl.
  - destruct (String.eqb k nm) eqn:Hk; simpl; rewrite Hk; [done|apply IH].
Qed.

Lemma find_channel_snoc nm ch (cs : list (string * EventChannel W)) :
  find_channel nm cs = None -> find_channel nm (cs ++ [(nm, ch)]) = Some ch.
Proof.
  induction cs as [|[k c0] r IH]; simpl.
  - by rewrite String.eqb_refl.
  - destruct (String.eqb k nm); [done|apply IH].
Qed.

Lemma find_channel_list_events nm m :
  is_Some (find_channel nm (event_types m)) -> nm ∈ list_events m.
Proof.
  unfold list_events. induction (event_types m) as [|[k c0] r IH]; simpl.
  - by intros [? ?].
  - destruct (String.eqb_spec k nm) as [->|Hne]; intros H.
    + apply list_elem_of_here.
    + apply list_elem_of_further. by apply IH.
Qed.

Lemma register_listener_buckets m nm l p m' :
  register_listener m nm l p = Ok m' ->
  exists k : nat,
    py_index (length (buckets m nm)) p = Ok k /\
    buckets m' nm = alter (fun b => b ++ [l]) k (buckets m nm) /\
    clock m' = clock m.
Proof.
  unfold register_listener, buckets.
  destruct (channel m nm) as [m1 ch] eqn:Hch. simpl.
  destruct (py_index (length (listeners ch)) p) as [k| |] eqn:Hk; simpl; try done.
  intros [= <-]. exists k. split; [done|].
  unfold channel at 1. simpl. rewrite find_store_channel. simpl. split; [done|].
  unfold channel in Hch. destruct (find_channel nm (event_types m)); by injection Hch as <- <-.
Qed.

Lemma py_index_lt (len : nat) (p : Z) (k : nat) : py_index len p = Ok k -> k < len.
Proof.
  unfold py_index. repeat case_match; intros [= <-]; lia.
Qed.





End Registration.

(** ** Emission *)

Section Emission.

Context {W : Type}.
Implicit Types (m : EventManager W) (ch : EventChannel W) (l : Listener W).

Lemma buckets_find m nm ch :
  find_channel nm (event_types m) = Some ch -> buckets m nm = listeners ch.
Proof. unfold buckets, channel. by intros ->. Qed.


Lemma ten_buckets_length m nm : ten_buckets m -> length (buckets m nm) = 10.
Proof.
  unfold ten_buckets, buckets, channel. intros Hall.
  destruct (find_channel nm (event_types m)) as [ch|] eqn:Hf; simpl; [|done].
  induction (event_types m) as [|[k c0] r IH]; simpl in *; [done|].
  apply Forall_cons in Hall as [Hc Hall].
  destruct (String.eqb k nm); [by injection Hf as <-|by apply IH].
Qed.

Lemma ten_buckets_init : ten_buckets (@manager_init W).
Proof. constructor. Qed.

Lemma ten_buckets_register m nm l p m' :
  ten_buckets m -> register_listener m nm l p = Ok m' -> ten_buckets m'.
Proof.
  intros Hten Hreg. pose proof (ten_buckets_length m nm Hten) as Hlen.
  revert Hreg. unfold register_listener, ten_buckets, buckets in *.
  destruct (channel m nm) as [m1 ch] eqn:Hch. simpl in *.
  destruct (py_index (length (listeners ch)) p) as [k| |]; simpl; try done.
  intros [= <-]. simpl.
  assert (Forall (fun kc => length (listeners (snd kc)) = 10) (event_types m1)) as Hm1.
  { unfold channel in Hch. destruct (find_channel nm (event_types m)).
    - by injection Hch as <- <-.
    - injection Hch as <- <-. simpl. apply Forall_app. split; [done|].
      by repeat constructor. }
  clear Hch. induction Hm1 as [|[k0 c0] r Hc0 Hr IH]; simpl.
  - repeat constructor. simpl. by rewrite length_alter.
  - destruct (String.eqb k0 nm); constructor; simpl; try done.
    by rewrite length_alter.
Qed.


(** C8. On a manager set up with a clock, the emitter obtained for
    "time_step" can be called while that channel has no listener: the call
    returns, with the event stamped and the state untouched, and
    [list_events] then contains "time_step". *)
Theorem emit_without_listeners m0 (c : unit -> Z) (ev : Event.t) (w : W) :
  concat (buckets (setup m0 c) "time_step") = [] ->
  exists ev',
    stamp (Some c) ev = Ok ev' /\
    call_emitter (fst (get_emitter (setup m0 c) "time_step"))
                 (snd (get_emitter (setup m0 c) "time_step")) ev w = Ok (ev', w) /\
    "time_step" ∈ list_events (fst (get_emitter (setup m0 c) "time_step")).
Proof.
  intros Hnone.
  assert (exists ev', stamp (Some c) ev = Ok ev') as [ev' Hev].
  { unfold stamp. destruct (Event.time ev); by eexists. }
  exists ev'. split; [done|].
  assert (forall (bs : list (list (Listener W))), concat bs = [] ->
          emit_buckets bs ev' w = Ok w) as Hquiet.
  { induction bs as [|b r IH]; simpl; [done|].
    intros Hb. apply app_eq_nil in Hb as [-> Hr]. simpl. by apply IH. }
  unfold get_emitter, call_emitter, buckets, channel in *. simpl in *.
  destruct (find_channel "time_step" (event_types m0)) as [ch|] eqn:Hf; simpl in *.
  - rewrite Hf. split.
    + unfold emit. simpl. rewrite Hev. simpl. by rewrite (Hquiet _ Hnone).
    + apply (find_channel_list_events "time_step" (setup m0 c)). simpl. by rewrite Hf.
  - rewrite (find_channel_snoc _ _ _ Hf). split.
    + unfold emit. simpl. by rewrite Hev.
    + unfold list_events. simpl. rewrite fmap_app. apply elem_of_app. right.
      apply list_elem_of_here.
Qed.

(** C10, as the code behaves. On a channel of ten buckets
    [register_listener] appends the listener to the bucket the priority
    indexes as a Python list index: bucket [priority] for 0..9, bucket
    [10 + priority] for -10..-1, and [IndexError] for a priority of 10 or
    more and for a priority below -10. *)
Theorem register_listener_bucket m (nm : string) l (p : Z) :
  ten_buckets m ->
  ((0 <= p <= 9)%Z ->
     exists m', register_listener m nm l p = Ok m' /\
       buckets m' nm = alter (fun b => b ++ [l]) (Z.to_nat p) (buckets m nm)) /\
  ((10 <= p)%Z -> register_listener m nm l p = Raise IndexError) /\
  ((-10 <= p <= -1)%Z ->
     exists m', register_listener m nm l p = Ok m' /\
       buckets m' nm = alter (fun b => b ++ [l]) (Z.to_nat (10 + p)) (buckets m nm)) /\
  ((p < -10)%Z -> register_listener m nm l p = Raise IndexError).
Proof.
  intros Hten. pose proof (ten_buckets_length m nm Hten) as Hlen.
  assert (forall k, py_index 10 p = Ok k ->
            exists m', register_listener m nm l p = Ok m' /\
              buckets m' nm = alter (fun b => b ++ [l]) k (buckets m nm)) as Hok.
  { intros k Hk. destruct (register_listener m nm l p) as [m'| |] eqn:Hreg.
    - exists m'. split; [done|].
      apply register_listener_buckets in Hreg as (k' & Hk' & Hb & _).
      rewrite Hlen in Hk'. congruence.
    - exfalso. revert Hreg. unfold register_listener, buckets in *.
      destruct (channel m nm) as [m1 ch]. simpl in *. by rewrite Hlen, Hk.
    - exfalso. revert Hreg. unfold register_listener, buckets in *.
      destruct (channel m nm) as [m1 ch]. simpl in *. by rewrite Hlen, Hk. }
  assert (py_index 10 p = Raise IndexError ->
          register_listener m nm l p = Raise IndexError) as Hfail.
  { intros Hk. unfold register_listener, buckets in *.
    destruct (channel m nm) as [m1 ch]. simpl in *. by rewrite Hlen, Hk. }
  split_and!; intros Hp.
  - apply Hok. unfold py_index.
    destruct (Z.leb_spec 0 p); [|lia]. destruct (Z.ltb_spec p (Z.of_nat 10)); [done|lia].
  - apply Hfail. unfold py_index.
    destruct (Z.leb_spec 0 p); [|lia]. destruct (Z.ltb_spec p (Z.of_nat 10)); [lia|done].
  - apply Hok. unfold py_index.
    destruct (Z.leb_spec 0 p); [lia|].
    destruct (Z.leb_spec (- Z.of_nat 10) p); [|lia]. do 2 f_equal. lia.
  - apply Hfail. unfold py_index.
    destruct (Z.leb_spec 0 p); [lia|].
    destruct (Z.leb_spec (- Z.of_nat 10) p); [lia|done].
Qed.

End Emission.



(** Witness of C8: a manager that has just been set up. *)
Lemma emit_without_listeners_witness :
  concat (buckets (setup (@manager_init unit) (fun _ => 7%Z)) "time_step") = [] /\
  exists ev',
    stamp (Some (fun _ => 7%Z)) (Event.init [1%Z; 2%Z] (VDict [])) = Ok ev' /\
    call_emitter (fst (get_emitter (setup manager_init (fun _ => 7%Z)) "time_step"))
                 (snd (get_emitter (setup (@manager_init unit) (fun _ => 7%Z)) "time_step"))
                 (Event.init [1%Z; 2%Z] (VDict [])) tt = Ok (ev', tt) /\
    "time_step" ∈ list_events (fst (get_emitter (setup (@manager_init unit) (fun _ => 7%Z)) "time_step")).
Proof.
  split; [reflexivity|].
  apply (emit_without_listeners manager_init (fun _ => 7%Z)). reflexivity.
Defined.

(** Witness of C10: priority -1 on a new manager. *)
Lemma register_listener_bucket_witness :
  ten_buckets (@manager_init unit) /\
  exists m', register_listener manager_init "time_step" (quiet "late" 0) (-1) = Ok m' /\
    buckets m' "time_step" =
      alter (fun b => b ++ [quiet "late" 0]) 9 (buckets manager_init "time_step").
Proof.
  split; [constructor|].
  apply (proj1 (proj2 (proj2
           (register_listener_bucket manager_init "time_step" (quiet "late" 0) (-1)
              (List.Forall_nil _))))).
  lia.
Defined.

(** C10 as stated fails: a priority below -10 is negative and raises. *)
Lemma priority_below_minus_ten_raises :
  register_listener (@manager_init unit) "time_step" (quiet "late" 0) (-11) = Raise IndexError.
Proof. reflexivity. Qed.

(** ** Children of a tree *)

Section Children.

Import ConfigTree.

(** Induction over a tree and the trees among its children. *)
Lemma tree_induction (P : ConfigTree.t -> Prop) :
  (forall l cs f,
      Forall (fun kc => match snd kc with Tree c => P c | Node _ => True end) cs ->
      P (mk l cs f)) ->
  forall x, P x.
Proof.
  intros H. fix IH 1. intros [l cs f]. apply H.
  induction cs as [|[k c] r IHr]; constructor; [|exact IHr].
  simpl. destruct c as [n|c]; [exact I|apply IH].
Qed.

Lemma lookup_assign_eq k c cs : lookup k (assign k c cs) = Some c.
Proof.
  induction cs as [|[k0 c0] r IH]; simpl.
  - by rewrite String.eqb_refl.
  - destruct (String.eqb k0 k) eqn:Hk; simpl; rewrite Hk; [done|apply IH].
Qed.

Lemma lookup_assign_ne k k' c cs : k' <> k -> lookup k' (assign k c cs) = lookup k' cs.
Proof.
  intros Hne. induction cs as [|[k0 c0] r IH]; simpl.
  - by destruct (String.eqb_spec k k').
  - destruct (String.eqb_spec k0 k) as [->|Hk]; simpl.
    + by destruct (String.eqb_spec k k').
    + by rewrite IH.
Qed.

Lemma assign_absent k c cs : lookup k cs = None -> assign k c cs = cs ++ [(k, c)].
Proof.
  induction cs as [|[k0 c0] r IH]; simpl; [done|].
  destruct (String.eqb k0 k); [done|]. intros H. by rewrite IH.
Qed.

Lemma lookup_map (g : child -> child) k cs :
  lookup k (map (fun kc => (fst kc, g (snd kc))) cs) = g <$> lookup k cs.
Proof.
  induction cs as [|[k0 c0] r IH]; simpl; [done|].
  destruct (String.eqb k0 k); [done|apply IH].
Qed.

Lemma lookup_elem k c cs : lookup k cs = Some c -> (k, c) ∈ cs.
Proof.
  induction cs as [|[k0 c0] r IH]; simpl; [done|].
  destruct (String.eqb_spec k0 k) as [->|Hk].
  - intros [= ->]. apply list_elem_of_here.
  - intros H. apply list_elem_of_further. by apply IH.
Qed.

(** A chained read along a path that leads to a node gives what the node
    resolves to. *)
Lemma read_path_node h x path layer n :
  descend x path = Some (Node n) ->
  read_path h x path layer = (v ← ConfigNode.get_value n layer; Ok (RVal v)).
Proof.
  revert h x. induction path as [|k rest IH]; intros h x; simpl; [done|].
  destruct (lookup k (children x)) as [[n'|c]|] eqn:Hk; [| |done].
  - destruct rest; [|done]. intros [= ->]. unfold get_from_layer. rewrite Hk.
    by destruct (ConfigNode.get_value n layer).
  - destruct rest as [|k' rest]; [done|]. intros Hd.
    unfold getattr, get_from_layer. rewrite Hk. simpl. by apply IH.
Qed.

End Children.

(** ** Name-based read *)

Section NameRead.

Import ConfigTree.

(** C6. A name-based read of a name without a child creates an empty
    unfrozen child tree, stores it last under the name and returns it when
    the tree is not frozen (the new tree refers to the parent's layer list,
    or to a new list ["base"] when the parent's list is empty), and raises
    [KeyError] when the tree is frozen; on a node child it gives what
    [get_value] gives on the node, on a tree child the child itself, the
    tree being left as it is. The containment test holds exactly when the
    name has a child; it is a function of the tree and returns no new
    state. *)
Theorem name_read_cases (h : store) (x : t) (name : string) (layer : option string) :
  (contains x name = true <-> is_Some (lookup name (children x))) /\
  (lookup name (children x) = None -> frozen x = true ->
     get_from_layer h x name layer = Raise KeyError) /\
  (lookup name (children x) = None -> frozen x = false ->
     forall ls, h !! layers x = Some ls ->
     exists h' c,
       get_from_layer h x name layer =
         Ok (h', mk (layers x) (children x ++ [(name, Tree c)]) false, RTree c) /\
       children c = [] /\ frozen c = false /\
       (ls <> [] -> h' = h /\ layers c = layers x) /\
       (ls = [] -> h' = h ++ [["base"]] /\ layers c = length h)) /\
  (forall n, lookup name (children x) = Some (Node n) ->
     get_from_layer h x name layer = (v ← ConfigNode.get_value n layer; Ok (h, x, RVal v))) /\
  (forall c, lookup name (children x) = Some (Tree c) ->
     get_from_layer h x name layer = Ok (h, x, RTree c)).
Proof.
  unfold contains, get_from_layer. split_and!.
  - destruct (lookup name (children x)); split; intros H;
      first [done | by eexists | by destruct H as [? ?]].
  - by intros -> ->.
  - intros Hl Hf ls Hls. rewrite Hl, Hf. unfold new_shared, deref. rewrite Hls.
    destruct ls as [|l0 ls]; simpl; rewrite (assign_absent _ _ _ Hl).
    + eexists _, _. split; [reflexivity|]. by split_and!.
    + eexists _, _. split; [reflexivity|]. by split_and!.
  - by intros n ->.
  - by intros c ->.
Qed.

(** Witness of C6: a first read of "cost" on a new tree with layers
    ["base"]. *)
Lemma name_read_cases_witness :
  exists h' c,
    get_from_layer [["base"]] (mk 0 [] false) "cost" None =
      Ok (h', mk 0 ([] ++ [("cost", Tree c)]) false, RTree c) /\
    children c = [] /\ frozen c = false /\
    (["base"] <> [] -> h' = [["base"]] /\ layers c = 0) /\
    (["base"] = [] -> h' = [["base"]] ++ [["base"]] /\ layers c = 1).
Proof.
  apply (proj1 (proj2 (proj2 (name_read_cases [["base"]] (mk 0 [] false) "cost" None)))
           eq_refl eq_refl ["base"] eq_refl).
Defined.

End NameRead.

(** ** Writes *)

Section Writes.

Import ConfigTree.

Lemma pyval_induction (P : pyval -> Prop) :
  (forall v, is_dict v = false -> P v) ->
  (forall d, Forall (fun kv => P (snd kv)) d -> P (VDict d)) ->
  forall v, P v.
Proof.
  intros Hs Hd. fix IH 1. intros [| | | | |d]; try (by apply Hs).
  apply Hd. induction d as [|[k w] r IHr]; constructor; [apply IH|exact IHr].
Qed.

Lemma set_with_metadata_dict d h x name layer source :
  set_with_metadata (VDict d) h x name layer source =
    if frozen x then Raise TypeError
    else
      '(h1, c) ← match lookup name (children x) with
                 | Some (Tree c) => Ok (h, c)
                 | _ => new_copy h (layers x)
                 end;
      '(h2, c') ← read_dict d h1 c layer source;
      Ok (h2, mk (layers x) (assign name (Tree c') (children x)) (frozen x)).
Proof.
  simpl. destruct (frozen x); [done|].
  destruct (match lookup name (children x) with
            | Some (Tree c) => Ok (h, c)
            | _ => new_copy h (layers x)
            end) as [[h1 c]| |]; simpl; [|done..].
  assert (forall d h c,
    (fix items (d : list (string * pyval)) (h : store) (c : t) : result (store * t) :=
       match d with
       | [] => Ok (h, c)
       | (k, v) :: d' =>
           '(h', c') ← set_with_metadata v h c k layer source; items d' h' c'
       end) d h c = read_dict d h c layer source) as ->; [|done].
  clear. induction d as [|[k v] r IH]; intros h c; simpl; [done|].
  destruct (set_with_metadata v h c k layer source) as [[h' c']| |]; simpl; [apply IH|done..].
Qed.

Lemma set_with_metadata_scalar v h x name layer source :
  is_dict v = false ->
  set_with_metadata v h x name layer source =
    if frozen x then Raise TypeError
    else
      n ← match lookup name (children x) with
          | Some (Node n) => Ok n
          | _ => ls ← deref h (layers x); Ok (ConfigNode.init ls)
          end;
      n' ← ConfigNode.set_value n v layer source;
      Ok (h, mk (layers x) (assign name (Node n') (children x)) (frozen x)).
Proof. by destruct v. Qed.

Lemma writable_unfold len l cs f :
  writable len (mk l cs f) =
    negb f && bool_decide (l < len) && forallb (fun kc => child_writable len (snd kc)) cs.
Proof. reflexivity. Qed.

Lemma writable_mono len len' x :
  len <= len' -> writable len x = true -> writable len' x = true.
Proof.
  intros Hle. induction x as [l cs f IH] using tree_induction.
  rewrite !writable_unfold, !andb_true_iff, !bool_decide_eq_true, !forallb_forall.
  intros [[Hf Hl] Hcs]. split_and!; [done|lia|].
  intros [k c] Hin. specialize (Hcs _ Hin). simpl in *.
  rewrite Forall_forall in IH. apply list_elem_of_In, IH in Hin. simpl in Hin.
  destruct c as [n|c]; [done|]. by apply Hin.
Qed.

Lemma child_writable_mono len len' c :
  len <= len' -> child_writable len c = true -> child_writable len' c = true.
Proof. destruct c; simpl; [done|apply writable_mono]. Qed.

Lemma writable_assign len l cs f k c :
  writable len (mk l cs f) = true -> child_writable len c = true ->
  writable len (mk l (assign k c cs) f) = true.
Proof.
  rewrite !writable_unfold, !andb_true_iff. intros [Hfl Hcs] Hc. split; [done|].
  clear Hfl. induction cs as [|[k0 c0] r IH]; simpl in *.
  - by rewrite Hc.
  - apply andb_true_iff in Hcs as [H0 Hr].
    destruct (String.eqb k0 k); simpl; rewrite ?Hc, ?H0; simpl; auto.
Qed.

Lemma writable_lookup len x k c :
  writable len x = true -> lookup k (children x) = Some c -> child_writable len c = true.
Proof.
  destruct x as [l cs f]. rewrite writable_unfold, !andb_true_iff, forallb_forall.
  intros [_ Hcs] Hk. apply lookup_elem, list_elem_of_In in Hk. by apply Hcs in Hk.
Qed.

Lemma writable_fields len x :
  writable len x = true -> frozen x = false /\ layers x < len.
Proof.
  destruct x as [l cs f]. rewrite writable_unfold, !andb_true_iff, bool_decide_eq_true.
  intros [[Hf Hl] _]. split; [by destruct f|done].
Qed.

Lemma tree_eta x : frozen x = false -> mk (layers x) (children x) false = x.
Proof. destruct x as [l cs f]. simpl. by intros ->. Qed.

Lemma deref_lt (h : store) (l : loc) :
  l < length h -> exists ls, h !! l = Some ls /\ deref h l = Ok ls.
Proof.
  intros Hl. unfold deref. destruct (h !! l) as [ls|] eqn:E; [by exists ls|].
  apply lookup_ge_None in E. lia.
Qed.

Lemma last_reverse (ls : list string) (l : string) :
  last ls = Some l -> exists r, reverse ls = l :: r.
Proof.
  induction ls as [|y r _] using rev_ind; [done|].
  rewrite last_snoc, reverse_snoc. intros [= ->]. by eexists.
Qed.

(** A node read with the layer argument it was written with gives back
    what was written. *)
Lemma node_read_after_write n v layer source n' :
  ConfigNode.set_value n v layer source = Ok n' ->
  ConfigNode.get_value_with_source n' layer = Ok (source, v) /\
  ConfigNode.frozen n' = false /\ ConfigNode.layers n' = ConfigNode.layers n.
Proof.
  unfold ConfigNode.set_value, ConfigNode.get_value_with_source, last_item.
  destruct (ConfigNode.frozen n) eqn:Hf; [done|].
  destruct (truthy layer) eqn:Ht; simpl.
  - intros [= <-]. simpl. by rewrite lookup_insert_eq.
  - destruct (last (ConfigNode.layers n)) as [l|] eqn:Hl; simpl; [|done].
    intros [= <-]. simpl. apply last_reverse in Hl as [r ->]. simpl.
    by rewrite lookup_insert_eq.
Qed.

Lemma leaves_scalar v : is_dict v = false -> leaves v = [([], v)].
Proof. by destruct v. Qed.

Lemma leaves_dict_elem d p w :
  (p, w) ∈ leaves (VDict d) ->
  exists k v p', p = k :: p' /\ (k, v) ∈ d /\ (p', w) ∈ leaves v.
Proof.
  induction d as [|[k v] r IH]; simpl; [by intros ?%elem_of_nil|].
  rewrite elem_of_app. intros [Hin|Hin].
  - apply list_elem_of_In, in_map_iff in Hin as ([p' w'] & [= <- <-] & Hin).
    exists k, v, p'. split_and!; [done|apply list_elem_of_here|by apply list_elem_of_In].
  - destruct (IH Hin) as (k' & v' & p' & -> & Hkv & Hp).
    exists k', v', p'. split_and!; [done|by apply list_elem_of_further|done].
Qed.

Lemma unique_keys_cons k v r :
  unique_keys (VDict ((k, v) :: r)) = true ->
  (k ∉ map fst r) /\ unique_keys v = true /\ unique_keys (VDict r) = true.
Proof.
  simpl. rewrite !andb_true_iff, !bool_decide_eq_true.
  intros [Hnd [Hv Hr]]. apply NoDup_cons in Hnd as [Hk Hnd]. by split_and!.
Qed.

Lemma descend_cons x k p :
  descend x (k :: p) = (lookup k (children x) ≫= fun c => descend_child c p).
Proof. simpl. by destruct (lookup k (children x)) as [[n|c]|]. Qed.

Lemma read_spec_of_entries d : Forall (fun kv => write_spec (snd kv)) d -> read_spec d.
Proof.
  induction 1 as [|[k v] r Hv Hr IH]; intros h x layer source Hw; simpl in *.
  - exists h, x. split_and!; try done. intros _ k v Hin. by apply elem_of_nil in Hin.
  - destruct (Hv h x k layer source Hw) as (h1 & x1 & -> & Hw1 & Hle1 & Hother1 & c & Hc & Hholds).
    simpl. destruct (IH h1 x1 layer source Hw1) as (h2 & x2 & -> & Hw2 & Hle2 & Hother2 & Hall).
    exists h2, x2. split_and!; [done|done|lia| |].
    + intros k' Hk'. rewrite not_elem_of_cons in Hk'. destruct Hk' as [Hne Hk'].
      rewrite Hother2; [|done]. by apply Hother1.
    + intros Hu k2 v2 Hin. apply unique_keys_cons in Hu as (Hk & Hu1 & Hu2).
      apply elem_of_cons in Hin as [[= -> ->]|Hin].
      * exists c. rewrite Hother2; [|done]. split; [done|by apply Hholds].
      * by apply Hall.
Qed.

Lemma write_spec_scalar v : is_dict v = false -> write_spec v.
Proof.
  intros Hv h x k layer source Hw.
  rewrite (set_with_metadata_scalar _ _ _ _ _ _ Hv).
  destruct (writable_fields _ _ Hw) as [Hf Hl]. rewrite Hf.
  assert (exists n, match lookup k (children x) with
                    | Some (Node n) => Ok n
                    | _ => ls ← deref h (layers x); Ok (ConfigNode.init ls)
                    end = Ok n /\ child_writable (length h) (Node n) = true)
    as (n & -> & Hn).
  { assert (exists ls, deref h (layers x) = Ok ls) as [ls Hls].
    { destruct (deref_lt h (layers x) Hl) as (ls & _ & Hls). by exists ls. }
    destruct (lookup k (children x)) as [[n|c]|] eqn:Hk.
    - exists n. split; [done|]. by eapply writable_lookup.
    - rewrite Hls. simpl. eexists. split; [done|]. by destruct ls.
    - rewrite Hls. simpl. eexists. split; [done|]. by destruct ls. }
  simpl in Hn. apply andb_true_iff in Hn as [Hnf Hnl]. simpl.
  destruct (ConfigNode.set_value n v layer source) as [n'| |] eqn:Hset; simpl.
  - destruct (node_read_after_write _ _ _ _ _ Hset) as (Hread & Hf' & Hl').
    eexists _, _. split; [reflexivity|]. split_and!.
    + apply writable_assign; [by rewrite tree_eta|]. simpl. by rewrite Hf', Hl'.
    + done.
    + intros k' Hne. simpl. by apply lookup_assign_ne.
    + exists (Node n'). simpl. rewrite lookup_assign_eq. split; [done|].
      intros _ p w. rewrite (leaves_scalar _ Hv). intros [= -> ->]%list_elem_of_singleton.
      by exists n'.
  - exfalso. revert Hset. unfold ConfigNode.set_value, last_item.
    destruct (ConfigNode.frozen n); [done|].
    destruct (truthy layer); simpl; [done|].
    destruct (ConfigNode.layers n) as [|l0 ls] using rev_ind; [done|].
    by rewrite last_snoc.
  - exfalso. revert Hset. unfold ConfigNode.set_value, last_item.
    destruct (ConfigNode.frozen n); [done|].
    destruct (truthy layer); simpl; [done|].
    by destruct (last (ConfigNode.layers n)).
Qed.

Lemma write_spec_dict d : read_spec d -> write_spec (VDict d).
Proof.
  intros Hd h x k layer source Hw. rewrite set_with_metadata_dict.
  destruct (writable_fields _ _ Hw) as [Hf Hl]. rewrite Hf.
  assert (exists h1 c, match lookup k (children x) with
                       | Some (Tree c) => Ok (h, c)
                       | _ => new_copy h (layers x)
                       end = Ok (h1, c) /\ writable (length h1) c = true /\
                       length h <= length h1)
    as (h1 & c & -> & Hc & Hle1).
  { assert (exists ls, new_copy h (layers x) =
              Ok (h ++ [ls], mk (length h) [] false)) as [ls Hnew].
    { unfold new_copy. destruct (deref_lt h (layers x) Hl) as (ls & _ & ->).
      by eexists. }
    assert (writable (length (h ++ [ls])) (mk (length h) [] false) = true) as Hfresh.
    { rewrite writable_unfold, length_app. simpl. rewrite bool_decide_eq_true_2; [done|lia]. }
    destruct (lookup k (children x)) as [[n|c]|] eqn:Hk.
    - eexists _, _. split; [exact Hnew|]. split; [done|]. rewrite length_app. lia.
    - exists h, c. split; [done|]. split; [|done]. by apply (writable_lookup _ _ _ _ Hw Hk).
    - eexists _, _. split; [exact Hnew|]. split; [done|]. rewrite length_app. lia. }
  simpl. destruct (Hd h1 c layer source Hc) as (h2 & c' & -> & Hc' & Hle2 & _ & Hall).
  simpl. eexists _, _. split; [reflexivity|]. split_and!.
  - apply writable_assign; [|done].
    apply (writable_mono (length h)); [lia|]. by rewrite tree_eta.
  - lia.
  - intros k' Hne. simpl. by apply lookup_assign_ne.
  - exists (Tree c'). simpl. rewrite lookup_assign_eq. split; [done|].
    intros Hu p w Hin. apply leaves_dict_elem in Hin as (k2 & v2 & p' & -> & Hkv & Hp).
    destruct (Hall Hu _ _ Hkv) as (c2 & Hc2 & Hholds). cbn [descend_child].
    rewrite descend_cons, Hc2. simpl. by apply Hholds.
Qed.

Lemma write_spec_all v : write_spec v.
Proof.
  induction v as [v Hv|d IH] using pyval_induction.
  - by apply write_spec_scalar.
  - by apply write_spec_dict, read_spec_of_entries.
Qed.

Lemma read_spec_all d : read_spec d.
Proof.
  apply read_spec_of_entries, Forall_forall. intros kv _. apply write_spec_all.
Qed.

End Writes.

(** ** Bulk load *)

Section BulkLoad.

Import ConfigTree.

Lemma deref_Some (h : store) (l : loc) (ls : list string) :
  h !! l = Some ls -> deref h l = Ok ls.
Proof. unfold deref. by intros ->. Qed.

(** C7, as the code behaves. On a tree in which nothing is frozen (every
    tree referring to a list of the store, every node declaring a layer),
    [read_dict] of a nested mapping returns, and afterwards every leaf path
    read with the layer argument of the write gives the leaf: the chained
    read returns the value, and the node at the path gives the pair of the
    passed source and the value. *)
Theorem read_dict_round_trip (d : list (string * pyval)) (h : store) (x : t)
    (layer source : option string) :
  unique_keys (VDict d) = true ->
  writable (length h) x = true ->
  exists h' x',
    read_dict d h x layer source = Ok (h', x') /\
    forall (p : list string) (w : pyval),
      (p, w) ∈ leaves (VDict d) ->
      read_path h' x' p layer = Ok (RVal w) /\
      exists n, descend x' p = Some (Node n) /\
                ConfigNode.get_value_with_source n layer = Ok (source, w).
Proof.
  intros Hu Hw.
  destruct (read_spec_all d h x layer source Hw) as (h' & x' & Hread & _ & _ & _ & Hall).
  exists h', x'. split; [done|]. intros p w Hin.
  apply leaves_dict_elem in Hin as (k & v & p' & -> & Hkv & Hp).
  destruct (Hall Hu _ _ Hkv) as (c & Hc & Hholds).
  destruct (Hholds _ _ Hp) as (n & Hn & Hget).
  assert (descend x' (k :: p') = Some (Node n)) as Hd.
  { by rewrite descend_cons, Hc. }
  split; [|by exists n].
  rewrite (read_path_node _ _ _ _ _ Hd). unfold ConfigNode.get_value. by rewrite Hget.
Qed.

End BulkLoad.

(** Witness of C7: a mapping with a nested mapping, loaded into a new
    tree with layers ["base"]. *)
Lemma read_dict_round_trip_witness :
  unique_keys (VDict [("a", VDict [("b", VInt 1)]); ("c", VStr "s")]) = true /\
  writable (length [["base"]]) (ConfigTree.mk 0 [] false) = true /\
  exists h' x',
    ConfigTree.read_dict [("a", VDict [("b", VInt 1)]); ("c", VStr "s")]
      [["base"]] (ConfigTree.mk 0 [] false) None (Some "file") = Ok (h', x') /\
    forall (p : list string) (w : pyval),
      (p, w) ∈ leaves (VDict [("a", VDict [("b", VInt 1)]); ("c", VStr "s")]) ->
      read_path h' x' p None = Ok (ConfigTree.RVal w) /\
      exists n, descend x' p = Some (ConfigTree.Node n) /\
                ConfigNode.get_value_with_source n None = Ok (Some "file", w).
Proof.
  split; [reflexivity|]. split; [reflexivity|].
  apply read_dict_round_trip; reflexivity.
Defined.

(** C7 as stated fails: a leaf written at layer "base" is not what a read
    without a layer gives when the node already holds a value in a layer
    declared later. *)
Lemma round_trip_masked_by_later_layer :
  exists (h : store) (x : ConfigTree.t) h' x' n,
    overridden_tree = Ok (h, x) /\
    writable (length h) x = true /\
    ConfigTree.read_dict [("x", VInt 1)] h x (Some "base") (Some "file") = Ok (h', x') /\
    read_path h' x' ["x"] None = Ok (ConfigTree.RVal (VInt 5)) /\
    descend x' ["x"] = Some (ConfigTree.Node n) /\
    ConfigNode.get_value_with_source n None = Ok (Some "cli", VInt 5).
Proof.
  eexists _, _, _, _, _. split; [vm_compute; reflexivity|].
  split; [reflexivity|]. split; [vm_compute; reflexivity|].
  split; [vm_compute; reflexivity|]. split; [vm_compute; reflexivity|].
  vm_compute. reflexivity.
Qed.

(** ** Freezing *)

Section Freezing.

Import ConfigTree.

Lemma drop_layer_unfold h l cs f layer :
  drop_layer h (mk l cs f) layer =
    ('(h1, cs') ← drop_children layer cs h;
     ls ← deref h1 l;
     ls' ← list_remove layer ls;
     Ok (<[l := ls']> h1, mk l cs' f)).
Proof.
  simpl.
  assert (forall cs h,
    (fix loop (cs : list (string * child)) (h : store)
         : result (store * list (string * child)) :=
       match cs with
       | [] => Ok (h, [])
       | (key, c) :: r =>
           '(h', c') ← match c with
                       | Tree c0 => '(h', c1) ← drop_layer h c0 layer; Ok (h', Tree c1)
                       | Node n => n' ← ConfigNode.drop_layer n layer; Ok (h, Node n')
                       end;
           '(h'', r') ← loop r h';
           Ok (h'', (key, c') :: r')
       end) cs h = drop_children layer cs h) as ->; [|done].
  clear. induction cs as [|[k c] r IH]; intros h; simpl; [done|].
  destruct c as [n|c0].
  - destruct (ConfigNode.drop_layer n layer); simpl; [|done..]. by rewrite IH.
  - destruct (drop_layer h c0 layer) as [[h' c1]| |]; simpl; [|done..]. by rewrite IH.
Qed.

Lemma reset_layer_unfold l cs f layer keys prefix :
  _reset_layer (mk l cs f) layer keys prefix =
    (cs' ← reset_children layer keys prefix cs; Ok (mk l cs' f)).
Proof.
  simpl.
  assert (forall cs,
    (fix loop (cs : list (string * child)) : result (list (string * child)) :=
       match cs with
       | [] => Ok []
       | (key, c) :: r =>
           c' ← (if bool_decide (prefix ++ [key] ∈ keys) then Ok c
                 else match c with
                      | Tree c0 =>
                          c1 ← _reset_layer c0 layer keys (prefix ++ [key]);
                          Ok (Tree c1)
                      | Node n => n' ← ConfigNode.reset_layer n layer; Ok (Node n')
                      end);
           r' ← loop r;
           Ok ((key, c') :: r')
       end) cs = reset_children layer keys prefix cs) as ->; [|done].
  clear. induction cs as [|[k c] r IH]; simpl; [done|]. by rewrite IH.
Qed.

Lemma freeze_unfold l cs f :
  freeze (mk l cs f) = mk l (map (fun kc => (fst kc, freeze_child (snd kc))) cs) true.
Proof. reflexivity. Qed.

Lemma frozen_freeze x : frozen (freeze x) = true.
Proof. by destruct x. Qed.

Lemma descend_freeze x p : descend (freeze x) p = freeze_child <$> descend x p.
Proof.
  revert x. induction p as [|k rest IH]; intros [l cs f]; [done|].
  rewrite freeze_unfold. simpl. rewrite lookup_map.
  destruct (lookup k cs) as [[n|c]|]; simpl; [by destruct rest|apply IH|done].
Qed.

Lemma set_with_metadata_frozen v h x name layer source :
  frozen x = true -> set_with_metadata v h x name layer source = Raise TypeError.
Proof. intros Hf. destruct v; simpl; by rewrite Hf. Qed.

Lemma node_drop_layer_freeze n layer :
  ConfigNode.drop_layer (ConfigNode.freeze n) layer =
    (n' ← ConfigNode.drop_layer n layer; Ok (ConfigNode.freeze n')).
Proof.
  unfold ConfigNode.drop_layer, ConfigNode.reset_layer. simpl.
  destruct (ConfigNode.values n !! layer); simpl; [|done].
  by destruct (list_remove layer (ConfigNode.layers n)).
Qed.

Lemma node_reset_layer_freeze n layer :
  ConfigNode.reset_layer (ConfigNode.freeze n) layer =
    (n' ← ConfigNode.reset_layer n layer; Ok (ConfigNode.freeze n')).
Proof.
  unfold ConfigNode.reset_layer. simpl. by destruct (ConfigNode.values n !! layer).
Qed.

(** The layer operations do not look at the frozen flag: on a frozen
    tree they do what they do on the tree before [freeze]. *)
Lemma drop_layer_freeze layer x :
  forall h, drop_layer h (freeze x) layer =
              ('(h', x') ← drop_layer h x layer; Ok (h', freeze x')).
Proof.
  induction x as [l cs f IH] using tree_induction. intros h.
  rewrite freeze_unfold, !drop_layer_unfold.
  assert (forall h,
    drop_children layer (map (fun kc => (fst kc, freeze_child (snd kc))) cs) h =
      ('(h', cs') ← drop_children layer cs h;
       Ok (h', map (fun kc => (fst kc, freeze_child (snd kc))) cs'))) as ->.
  { clear h. induction IH as [|[k c] r Hc Hr IHr]; intros h; simpl; [done|].
    destruct c as [n|c0]; simpl in *.
    - rewrite node_drop_layer_freeze.
      destruct (ConfigNode.drop_layer n layer); simpl; [|done..].
      rewrite IHr. by destruct (drop_children layer r h) as [[h' r']| |].
    - rewrite Hc. destruct (drop_layer h c0 layer) as [[h' c1]| |]; simpl; [|done..].
      rewrite IHr. by destruct (drop_children layer r h') as [[h'' r']| |]. }
  destruct (drop_children layer cs h) as [[h1 cs']| |]; simpl; [|done..].
  destruct (deref h1 l); simpl; [|done..].
  by destruct (list_remove layer a).
Qed.

Lemma reset_layer_freeze layer keys x :
  forall prefix, _reset_layer (freeze x) layer keys prefix =
                   (x' ← _reset_layer x layer keys prefix; Ok (freeze x')).
Proof.
  induction x as [l cs f IH] using tree_induction. intros prefix.
  rewrite freeze_unfold, !reset_layer_unfold.
  assert (reset_children layer keys prefix
            (map (fun kc => (fst kc, freeze_child (snd kc))) cs) =
          (cs' ← reset_children layer keys prefix cs;
           Ok (map (fun kc => (fst kc, freeze_child (snd kc))) cs'))) as ->.
  { induction IH as [|[k c] r Hc Hr IHr]; simpl; [done|].
    rewrite IHr. destruct (bool_decide (prefix ++ [k] ∈ keys)); simpl.
    - by destruct (reset_children layer keys prefix r).
    - destruct c as [n|c0]; simpl in *.
      + rewrite node_reset_layer_freeze.
        destruct (ConfigNode.reset_layer n layer); simpl; [|done..].
        by destruct (reset_children layer keys prefix r).
      + rewrite Hc. destruct (_reset_layer c0 layer keys (prefix ++ [k])); simpl; [|done..].
        by destruct (reset_children layer keys prefix r). }
  by destruct (reset_children layer keys prefix cs).
Qed.

(** C4, as the code behaves. After [freeze] every write of a value is
    rejected with [TypeError]: [set_with_metadata] and [read_dict] of a
    mapping that is not empty on the tree and on every tree below it, and
    [set_value] on every node below it. *)
Theorem freeze_rejects_value_writes (x : t) :
  (forall (p : list string) (c : t),
      descend (freeze x) p = Some (Tree c) ->
      frozen c = true /\
      (forall v h name layer source,
          set_with_metadata v h c name layer source = Raise TypeError) /\
      (forall k v d h layer source,
          read_dict ((k, v) :: d) h c layer source = Raise TypeError)) /\
  (forall (p : list string) (n : ConfigNode.t),
      descend (freeze x) p = Some (Node n) ->
      ConfigNode.frozen n = true /\
      forall v layer source, ConfigNode.set_value n v layer source = Raise TypeError).
Proof.
  split.
  - intros p c. rewrite descend_freeze.
    destruct (descend x p) as [[n|c0]|]; simpl; try done.
    intros [= <-]. pose proof (frozen_freeze c0) as Hf. split_and!; [done| |].
    + intros. by apply set_with_metadata_frozen.
    + intros. simpl. by rewrite set_with_metadata_frozen.
  - intros p n. rewrite descend_freeze.
    destruct (descend x p) as [[n0|c0]|]; simpl; try done.
    intros [= <-]. split; [done|]. intros. reflexivity.
Qed.

End Freezing.

(** Witness of C4: the frozen scenario tree, at its root. *)
Lemma freeze_rejects_value_writes_witness :
  ConfigTree.frozen (ConfigTree.freeze scenario_root) = true /\
  (forall v h name layer source,
      ConfigTree.set_with_metadata v h (ConfigTree.freeze scenario_root) name layer source =
        Raise TypeError) /\
  (forall k v d h layer source,
      ConfigTree.read_dict ((k, v) :: d) h (ConfigTree.freeze scenario_root) layer source =
        Raise TypeError).
Proof.
  apply (proj1 (freeze_rejects_value_writes scenario_root) []). reflexivity.
Defined.

(** C4 as stated fails: on the frozen scenario tree [drop_layer] and
    [reset_layer] return and remove the entries of "override". *)
Lemma frozen_tree_accepts_layer_changes :
  ConfigTree.frozen (ConfigTree.freeze scenario_root) = true /\
  (exists h' x',
      ConfigTree.drop_layer [["override"; "base"]] (ConfigTree.freeze scenario_root)
        "override" = Ok (h', x') /\
      x' <> ConfigTree.freeze scenario_root) /\
  (exists x',
      ConfigTree.reset_layer (ConfigTree.freeze scenario_root) "override" [] = Ok x' /\
      x' <> ConfigTree.freeze scenario_root).
Proof.
  split; [reflexivity|]. split.
  - eexists _, _. split; [vm_compute; reflexivity|]. vm_compute. intros [= ?].
  - eexists. split; [vm_compute; reflexivity|]. vm_compute. intros [= ?].
Qed.

(** ** Dropping a layer *)

Section DropLayer.

Import ConfigTree.

Lemma list_remove_in x l : x ∈ l -> list_remove x l = Ok (remove_first x l).
Proof.
  induction l as [|y r IH]; simpl; [by intros ?%elem_of_nil|].
  destruct (String.eqb_spec y x) as [->|Hne]; [done|].
  intros [?|Hin]%elem_of_cons; [congruence|]. by rewrite IH.
Qed.

Lemma list_remove_notin x l : x ∉ l -> list_remove x l = Raise ValueError.
Proof.
  induction l as [|y r IH]; simpl; [done|].
  rewrite not_elem_of_cons. intros [Hne Hin].
  destruct (String.eqb_spec y x) as [->|_]; [done|]. by rewrite IH.
Qed.

Lemma remove_first_in x b l : b <> x -> b ∈ l -> b ∈ remove_first x l.
Proof.
  intros Hne. induction l as [|y r IH]; simpl; [done|].
  destruct (String.eqb_spec y x) as [->|_].
  - intros [?|Hin]%elem_of_cons; [congruence|done].
  - intros [->|Hin]%elem_of_cons; [apply list_elem_of_here|].
    apply list_elem_of_further. by apply IH.
Qed.

Lemma remove_first_subset x b l : b ∈ remove_first x l -> b ∈ l.
Proof.
  induction l as [|y r IH]; simpl; [done|].
  destruct (String.eqb y x).
  - apply list_elem_of_further.
  - intros [->|Hin]%elem_of_cons; [apply list_elem_of_here|].
    apply list_elem_of_further. by apply IH.
Qed.

Lemma node_drop_ok layer n :
  holds_layer layer n = true ->
  ConfigNode.drop_layer n layer = Ok (node_without layer n).
Proof.
  unfold holds_layer. rewrite bool_decide_eq_true. intros [[e He] Hin].
  unfold ConfigNode.drop_layer, ConfigNode.reset_layer. rewrite He. simpl.
  by rewrite (list_remove_in _ _ Hin).
Qed.

Lemma drop_children_spec layer cs :
  Forall (fun kc => match snd kc with Tree c => drop_spec layer c | Node _ => True end) cs ->
  forall h : store,
    NoDup (flat_map (fun kc => child_locs (snd kc)) cs) ->
    (forall l, l ∈ flat_map (fun kc => child_locs (snd kc)) cs ->
               exists ls, h !! l = Some ls /\ layer ∈ ls) ->
    forallb (fun kc => match snd kc with
                       | Node n => holds_layer layer n
                       | Tree c => all_nodes (holds_layer layer) c
                       end) cs = true ->
    exists h',
      drop_children layer cs h =
        Ok (h', map (fun kc => (fst kc, child_without layer (snd kc))) cs) /\
      length h' = length h /\
      forall l, h' !! l =
                  if decide (l ∈ flat_map (fun kc => child_locs (snd kc)) cs)
                  then remove_first layer <$> h !! l
                  else h !! l.
Proof.
  induction 1 as [|[k c] r Hc Hr IH]; intros h Hnd Hin Hall; simpl in *.
  - exists h. by split_and!.
  - apply andb_true_iff in Hall as [Hall0 Hall].
    destruct c as [n|c0]; simpl in *.
    + rewrite (node_drop_ok _ _ Hall0). simpl.
      destruct (IH h Hnd Hin Hall) as (h' & -> & Hlen & Hlook).
      exists h'. by split_and!.
    + apply NoDup_app in Hnd as (Hnd0 & Hdisj & Hndr).
      destruct (Hc h Hnd0) as (h1 & -> & Hlen1 & Hlook1); [|done|].
      { intros l Hl. apply Hin, elem_of_app. by left. }
      simpl. destruct (IH h1 Hndr) as (h2 & -> & Hlen2 & Hlook2); [|done|].
      { intros l Hl. rewrite Hlook1, decide_False.
        - apply Hin, elem_of_app. by right.
        - intros Hl0. by apply (Hdisj _ Hl0). }
      exists h2. split_and!; [done|congruence|].
      intros l. rewrite Hlook2, Hlook1.
      destruct (decide (l ∈ flat_map (fun kc => child_locs (snd kc)) r)) as [Hr1|Hr1].
      * rewrite decide_False by (intros Hl0; by apply (Hdisj _ Hl0)).
        rewrite decide_True; [done|]. apply elem_of_app. by right.
      * destruct (decide (l ∈ tree_locs c0)) as [H0|H0].
        -- rewrite decide_True; [done|]. apply elem_of_app. by left.
        -- rewrite decide_False; [done|]. by intros [?|?]%elem_of_app.
Qed.

Lemma drop_spec_all layer x : drop_spec layer x.
Proof.
  induction x as [l cs f IH] using tree_induction.
  intros h Hnd Hin Hall. simpl in Hnd, Hin, Hall.
  apply NoDup_cons in Hnd as [Hl Hnd].
  destruct (drop_children_spec layer cs IH h Hnd) as (h1 & Hdrop & Hlen & Hlook); [|done|].
  { intros l0 Hl0. apply Hin. by apply list_elem_of_further. }
  destruct (Hin l) as (ls & Hls & Hlayer); [apply list_elem_of_here|].
  assert (h1 !! l = Some ls) as Hls1 by (by rewrite Hlook, decide_False).
  rewrite drop_layer_unfold, Hdrop. simpl.
  unfold deref. rewrite Hls1. simpl. rewrite (list_remove_in _ _ Hlayer). simpl.
  eexists. split; [reflexivity|]. split; [by rewrite length_insert|].
  intros l'. destruct (decide (l' = l)) as [->|Hne].
  - rewrite decide_True by apply list_elem_of_here.
    rewrite list_lookup_insert_eq by (by eapply lookup_lt_Some). by rewrite Hls.
  - rewrite list_lookup_insert_ne by done. rewrite Hlook.
    destruct (decide (l' ∈ flat_map (fun kc => child_locs (snd kc)) cs)) as [H1|H1].
    + rewrite decide_True; [done|]. by apply list_elem_of_further.
    + rewrite decide_False; [done|]. by intros [?|?]%elem_of_cons.
Qed.

(** A node without an entry for the layer makes [drop_layer] raise
    [KeyError] when it is the first thing the traversal meets. *)
Lemma drop_layer_first_leaf layer x :
  forall (n : ConfigNode.t) (h : store),
    first_leaf x = Some n -> ConfigNode.values n !! layer = None ->
    drop_layer h x layer = Raise KeyError.
Proof.
  induction x as [l cs f IH] using tree_induction. intros n h Hfirst Hnone.
  rewrite drop_layer_unfold. destruct cs as [|[k c] r]; [done|].
  apply Forall_cons in IH as [Hc _]. simpl in *. destruct c as [n0|c0].
  - injection Hfirst as ->.
    unfold ConfigNode.drop_layer, ConfigNode.reset_layer. by rewrite Hnone.
  - by rewrite (Hc n h Hfirst Hnone).
Qed.

Lemma first_leaf_without layer x :
  first_leaf (tree_without layer x) = node_without layer <$> first_leaf x.
Proof.
  induction x as [l cs f IH] using tree_induction.
  destruct cs as [|[k c] r]; [done|]. apply Forall_cons in IH as [Hc _].
  simpl in *. by destruct c.
Qed.

Lemma descend_without layer x p :
  descend (tree_without layer x) p = child_without layer <$> descend x p.
Proof.
  revert x. induction p as [|k rest IH]; intros [l cs f]; [done|].
  simpl. rewrite (lookup_map (child_without layer)).
  destruct (lookup k cs) as [[n|c]|]; simpl; [by destruct rest|apply IH|done].
Qed.

Lemma scan_only (ls : list string) (vs : gmap string ConfigNode.entry) b e :
  b ∈ ls -> vs !! b = Some e ->
  (forall l', l' ∈ ls -> l' <> b -> vs !! l' = None) ->
  ConfigNode.scan ls vs = Some e.
Proof.
  intros Hb He. induction ls as [|y r IH]; simpl; [by apply elem_of_nil in Hb|].
  intros Hnone. destruct (decide (y = b)) as [->|Hne].
  - by rewrite He.
  - rewrite (Hnone y); [|apply list_elem_of_here|done].
    apply elem_of_cons in Hb as [?|Hb]; [congruence|].
    apply IH; [done|]. intros l' Hl'. apply Hnone. by apply list_elem_of_further.
Qed.

(** Without [layer], a node that holds values in [layer] and [base] only
    resolves to the entry of [base]. *)
Lemma node_without_resolves layer base n e :
  base <> layer ->
  ConfigNode.values n !! base = Some e ->
  base ∈ ConfigNode.layers n ->
  (forall l', l' ∈ ConfigNode.layers n -> l' <> base -> l' <> layer ->
              ConfigNode.values n !! l' = None) ->
  ConfigNode.get_value_with_source (node_without layer n) None = Ok e.
Proof.
  intros Hne He Hb Hnone. unfold ConfigNode.get_value_with_source. simpl.
  rewrite (scan_only _ _ base e); [done| | |].
  - apply elem_of_reverse. by apply remove_first_in.
  - by rewrite lookup_delete_ne.
  - intros l' Hl' Hl'b. apply elem_of_reverse, remove_first_subset in Hl'.
    destruct (decide (l' = layer)) as [->|Hl'l].
    + apply lookup_delete_eq.
    + rewrite lookup_delete_ne by done. by apply Hnone.
Qed.

(** C5, as the code behaves. On a tree whose trees each refer to a list
    of their own that declares "clinical" and whose nodes each declare
    "clinical" and hold an entry for it, [drop_layer("clinical")] returns:
    every node has lost its "clinical" entry and every declared sequence
    its first "clinical"; a node that held values in "clinical" and "base"
    only then resolves to its "base" entry. A second
    [drop_layer("clinical")] raises [KeyError] when the traversal meets a
    node first, that node having no "clinical" entry left; it raises
    [ValueError] on a tree without children whose sequence no longer
    declares "clinical". *)
Theorem drop_layer_clinical (h : store) (x : t) :
  NoDup (tree_locs x) ->
  (forall l, l ∈ tree_locs x -> exists ls, h !! l = Some ls /\ "clinical" ∈ ls) ->
  all_nodes (holds_layer "clinical") x = true ->
  exists h',
    drop_layer h x "clinical" = Ok (h', tree_without "clinical" x) /\
    (forall l, h' !! l =
                 if decide (l ∈ tree_locs x) then remove_first "clinical" <$> h !! l
                 else h !! l) /\
    (forall (p : list string) (n : ConfigNode.t),
        descend x p = Some (Node n) ->
        descend (tree_without "clinical" x) p = Some (Node (node_without "clinical" n)) /\
        ConfigNode.values (node_without "clinical" n) !! "clinical" = None /\
        forall e : ConfigNode.entry,
          ConfigNode.values n !! "base" = Some e ->
          "base" ∈ ConfigNode.layers n ->
          (forall l', l' ∈ ConfigNode.layers n -> l' <> "base" -> l' <> "clinical" ->
                      ConfigNode.values n !! l' = None) ->
          ConfigNode.get_value_with_source (node_without "clinical" n) None = Ok e /\
          read_path h' (tree_without "clinical" x) p None = Ok (RVal (snd e))) /\
    (forall n : ConfigNode.t,
        first_leaf x = Some n ->
        drop_layer h' (tree_without "clinical" x) "clinical" = Raise KeyError) /\
    (children x = [] ->
     (forall ls, h !! layers x = Some ls -> "clinical" ∉ remove_first "clinical" ls) ->
     drop_layer h' (tree_without "clinical" x) "clinical" = Raise ValueError).
Proof.
  intros Hnd Hin Hall.
  destruct (drop_spec_all "clinical" x h Hnd Hin Hall) as (h' & Hdrop & Hlen & Hlook).
  exists h'. split_and!; [done|done| | |].
  - intros p n Hp.
    assert (descend (tree_without "clinical" x) p = Some (Node (node_without "clinical" n)))
      as Hp'.
    { by rewrite descend_without, Hp. }
    split_and!; [done|apply lookup_delete_eq|].
    intros e He Hb Hnone.
    assert (ConfigNode.get_value_with_source (node_without "clinical" n) None = Ok e) as Hget.
    { by apply (node_without_resolves "clinical" "base"). }
    split; [done|]. rewrite (read_path_node _ _ _ _ _ Hp').
    unfold ConfigNode.get_value. by rewrite Hget.
  - intros n Hfirst. apply (drop_layer_first_leaf _ _ (node_without "clinical" n)).
    + by rewrite first_leaf_without, Hfirst.
    + apply lookup_delete_eq.
  - destruct x as [l cs f]. intros Hcs Hnot. simpl in Hcs. subst cs.
    change (tree_without "clinical" (mk l [] f)) with (mk l [] f).
    rewrite drop_layer_unfold. simpl. unfold deref.
    rewrite Hlook, decide_True by apply list_elem_of_here.
    destruct (Hin l) as (ls & Hls & _); [apply list_elem_of_here|].
    rewrite Hls. simpl. by rewrite (list_remove_notin _ _ (Hnot _ Hls)).
Qed.

End DropLayer.

(** [clinical_root] is what two writes of "rate" build on a new tree. *)
Lemma clinical_root_built :
  ('(h, x) ← ConfigTree.init [["base"; "clinical"]] None (Some 0);
   '(h, x) ← ConfigTree.set_with_metadata (VInt 1) h x "rate" (Some "base") (Some "defaults");
   ConfigTree.set_with_metadata (VInt 2) h x "rate" (Some "clinical") (Some "trial")) =
  Ok ([["base"; "clinical"]], clinical_root).
Proof. vm_compute. reflexivity. Qed.

(** [shared_root] is what a read of "a" on a new tree, followed by two
    writes of "b" on the tree the read returned, builds: that tree is the
    object stored under "a". *)
Lemma shared_root_built :
  exists x1 c c2,
    ConfigTree.get_from_layer [["base"; "clinical"]] (ConfigTree.mk 0 [] false) "a" None =
      Ok ([["base"; "clinical"]], x1, ConfigTree.RTree c) /\
    ConfigTree.layers c = 0 /\
    ('(h, c1) ← ConfigTree.set_with_metadata (VInt 1) [["base"; "clinical"]] c "b" (Some "base") None;
     ConfigTree.set_with_metadata (VInt 2) h c1 "b" (Some "clinical") None) =
      Ok ([["base"; "clinical"]], c2) /\
    shared_root =
      ConfigTree.mk 0 (ConfigTree.assign "a" (ConfigTree.Tree c2) (ConfigTree.children x1)) false.
Proof.
  eexists _, _, _. split; [vm_compute; reflexivity|]. split; [reflexivity|].
  split; vm_compute; reflexivity.
Qed.

(** Witness of C5: the tree with layers ["base", "clinical"] in which
    "rate" holds a value in both. *)
Lemma drop_layer_clinical_witness :
  NoDup (tree_locs clinical_root) /\
  (forall l, l ∈ tree_locs clinical_root ->
             exists ls, [["base"; "clinical"]] !! l = Some ls /\ "clinical" ∈ ls) /\
  all_nodes (holds_layer "clinical") clinical_root = true /\
  exists h',
    ConfigTree.drop_layer [["base"; "clinical"]] clinical_root "clinical" =
      Ok (h', tree_without "clinical" clinical_root) /\
    (forall l, h' !! l =
                 if decide (l ∈ tree_locs clinical_root)
                 then remove_first "clinical" <$> [["base"; "clinical"]] !! l
                 else [["base"; "clinical"]] !! l) /\
    (forall (p : list string) (n : ConfigNode.t),
        descend clinical_root p = Some (ConfigTree.Node n) ->
        descend (tree_without "clinical" clinical_root) p =
          Some (ConfigTree.Node (node_without "clinical" n)) /\
        ConfigNode.values (node_without "clinical" n) !! "clinical" = None /\
        forall e : ConfigNode.entry,
          ConfigNode.values n !! "base" = Some e ->
          "base" ∈ ConfigNode.layers n ->
          (forall l', l' ∈ ConfigNode.layers n -> l' <> "base" -> l' <> "clinical" ->
                      ConfigNode.values n !! l' = None) ->
          ConfigNode.get_value_with_source (node_without "clinical" n) None = Ok e /\
          read_path h' (tree_without "clinical" clinical_root) p None =
            Ok (ConfigTree.RVal (snd e))) /\
    (forall n : ConfigNode.t,
        first_leaf clinical_root = Some n ->
        ConfigTree.drop_layer h' (tree_without "clinical" clinical_root) "clinical" =
          Raise KeyError) /\
    (ConfigTree.children clinical_root = [] ->
     (forall ls, [["base"; "clinical"]] !! ConfigTree.layers clinical_root = Some ls ->
                 "clinical" ∉ remove_first "clinical" ls) ->
     ConfigTree.drop_layer h' (tree_without "clinical" clinical_root) "clinical" =
       Raise ValueError).
Proof.
  assert (NoDup (tree_locs clinical_root)) as Hnd.
  { apply NoDup_singleton. }
  assert (forall l, l ∈ tree_locs clinical_root ->
                    exists ls, [["base"; "clinical"]] !! l = Some ls /\ "clinical" ∈ ls) as Hin.
  { intros l Hl. apply list_elem_of_singleton in Hl as ->.
    exists ["base"; "clinical"]. split; [reflexivity|].
    apply list_elem_of_further, list_elem_of_here. }
  assert (all_nodes (holds_layer "clinical") clinical_root = true) as Hall.
  { vm_compute. reflexivity. }
  split; [exact Hnd|]. split; [exact Hin|]. split; [exact Hall|].
  exact (drop_layer_clinical [["base"; "clinical"]] clinical_root Hnd Hin Hall).
Defined.

(** C5 as stated fails: the second [drop_layer("clinical")] raises
    [KeyError], from the node that has no "clinical" entry left, and not
    [ValueError]. *)
Lemma second_drop_raises_key_error :
  exists h' x',
    ConfigTree.drop_layer [["base"; "clinical"]] clinical_root "clinical" = Ok (h', x') /\
    ConfigTree.drop_layer h' x' "clinical" = Raise KeyError /\
    ConfigTree.drop_layer h' x' "clinical" <> Raise ValueError.
Proof.
  eexists _, _. split; [vm_compute; reflexivity|]. split; [vm_compute; reflexivity|].
  vm_compute. intros [= ?].
Qed.

(** A child tree created by a read refers to the list object of its parent:
    the child removes "clinical" from that list and the parent then finds
    nothing to remove, so the first [drop_layer] raises [ValueError]. *)
Lemma shared_layers_first_drop_raises :
  ConfigTree.drop_layer [["base"; "clinical"]] shared_root "clinical" = Raise ValueError.
Proof. vm_compute. reflexivity. Qed.

(** * Further properties of the configuration node *)

Section NodeRecords.

Import ConfigNode.

Lemma metadata_loop_app lst (a b : list string) (vs : gmap string entry) :
  metadata_loop lst (a ++ b) vs = metadata_loop lst a vs ++ metadata_loop lst b vs.
Proof.
  induction a as [|x a IH]; simpl; [done|].
  destruct (vs !! x) as [[src v]|]; simpl; by rewrite IH.
Qed.

Lemma metadata_loop_layers lst (ls : list string) (vs : gmap string entry) :
  map r_layer (metadata_loop lst ls vs) = filter (fun l => is_Some (vs !! l)) ls.
Proof.
  induction ls as [|x r IH]; simpl; [done|].
  destruct (vs !! x) as [[src v]|] eqn:Hx; simpl.
  - rewrite filter_cons_True by (eexists; exact Hx). by rewrite IH.
  - rewrite filter_cons_False; [done|]. intros [e He]. cbv beta in He.
    unfold entry in *. congruence.
Qed.

Lemma metadata_loop_elem lst (ls : list string) (vs : gmap string entry) (r : record) :
  r ∈ metadata_loop lst ls vs ->
  r_layer r ∈ ls /\
  vs !! r_layer r = Some (r_source r, r_value r) /\
  r_default r = bool_decide (Some (r_layer r) = lst).
Proof.
  induction ls as [|x ls IH]; simpl; [by intros ?%elem_of_nil|].
  destruct (vs !! x) as [[src v]|] eqn:Hx.
  - intros [->|Hin]%elem_of_cons; simpl.
    + split_and!; [apply list_elem_of_here|done|done].
    + destruct (IH Hin) as (? & ? & ?). split_and!; [by apply list_elem_of_further|done..].
  - intros Hin. destruct (IH Hin) as (? & ? & ?).
    split_and!; [by apply list_elem_of_further|done..].
Qed.

(** X1. [metadata] lists the declared layers that hold a value, in
    declaration order; each record carries the source and the value stored
    for its layer, and its default flag tells whether its layer is the last
    declared one. A value stored for a layer that is not declared is not
    listed. *)
Theorem metadata_records (n : t) :
  map r_layer (metadata n) = filter (fun l => is_Some (values n !! l)) (layers n) /\
  forall r : record,
    r ∈ metadata n ->
    r_layer r ∈ layers n /\
    values n !! r_layer r = Some (r_source r, r_value r) /\
    r_default r = bool_decide (Some (r_layer r) = last (layers n)).
Proof.
  unfold metadata. split; [apply metadata_loop_layers|]. intros r. apply metadata_loop_elem.
Qed.

(** X2. A read without a layer and [metadata] agree: the read gives the
    source and value of the last record of [metadata], and raises
    [KeyError] exactly when [metadata] is empty. *)
Theorem read_is_last_record (n : t) :
  get_value_with_source n None =
    match last (metadata n) with
    | Some r => Ok (r_source r, r_value r)
    | None => Raise KeyError
    end.
Proof.
  unfold get_value_with_source, metadata. simpl.
  generalize (last (layers n)). intros lst.
  induction (layers n) as [|x r IH] using rev_ind; [done|].
  rewrite reverse_snoc, metadata_loop_app. simpl.
  destruct (values n !! x) as [[src v]|] eqn:Hx.
  - by rewrite last_snoc.
  - by rewrite app_nil_r.
Qed.

(** X3. A write on a node that returns is read back by a read with the same
    layer argument; it changes the entry of one layer only (the layer named,
    or the last declared layer when none is named) and leaves the declared
    layers as they are. *)
Theorem node_write_then_read (n n' : t) (v : pyval) (layer source : option string) :
  set_value n v layer source = Ok n' ->
  get_value_with_source n' layer = Ok (source, v) /\
  layers n' = layers n /\
  exists l : string,
    values n' = <[l := (source, v)]> (values n) /\
    (if truthy layer then layer = Some l else last (layers n) = Some l).
Proof.
  intros Hset. destruct (node_read_after_write _ _ _ _ _ Hset) as (Hread & _ & Hl).
  split_and!; [done..|]. revert Hset. unfold set_value, last_item.
  destruct (frozen n); [done|]. destruct (truthy layer) eqn:Ht; simpl.
  - intros [= <-]. simpl. destruct layer as [l|]; [|done]. by exists l.
  - destruct (last (layers n)) as [l|]; simpl; [|done]. intros [= <-]. by exists l.
Qed.

Lemma scan_insert_undeclared (ls : list string) (vs : gmap string entry) l e :
  l ∉ ls -> scan ls (<[l := e]> vs) = scan ls vs.
Proof.
  induction ls as [|x r IH]; simpl; [done|].
  rewrite not_elem_of_cons. intros [Hne Hr].
  rewrite lookup_insert_ne by done. rewrite IH by done. done.
Qed.

Lemma metadata_loop_insert_undeclared lst (ls : list string) (vs : gmap string entry) l e :
  l ∉ ls -> metadata_loop lst ls (<[l := e]> vs) = metadata_loop lst ls vs.
Proof.
  induction ls as [|x r IH]; simpl; [done|].
  rewrite not_elem_of_cons. intros [Hne Hr].
  rewrite lookup_insert_ne by done. rewrite IH by done. done.
Qed.

(** X4. A value written for a layer that the node does not declare is
    returned by a read that names the layer, and by nothing else: reads
    without a layer and [metadata] are as before the write. *)
Theorem undeclared_layer_is_hidden (n : t) (v : pyval) (l : string) (source : option string) :
  frozen n = false -> l <> "" -> l ∉ layers n ->
  exists n',
    set_value n v (Some l) source = Ok n' /\
    get_value_with_source n' (Some l) = Ok (source, v) /\
    get_value_with_source n' None = get_value_with_source n None /\
    metadata n' = metadata n.
Proof.
  intros Hf Hl Hnot. unfold set_value, get_value_with_source, metadata. rewrite Hf. simpl.
  apply String.eqb_neq in Hl. rewrite Hl. simpl. eexists. split; [reflexivity|]. simpl.
  rewrite lookup_insert_eq, scan_insert_undeclared, metadata_loop_insert_undeclared;
    [done|done|].
  by rewrite elem_of_reverse.
Qed.

(** X5. [drop_layer] on a node returns exactly when the layer holds a value
    and is declared, and then removes the value and the first declaration
    of the layer; it raises [KeyError] exactly when the layer holds no
    value, declared or not, and [ValueError] exactly when the layer holds a
    value but is not declared. *)
Theorem node_drop_layer_outcomes (n : t) (l : string) :
  (forall n', drop_layer n l = Ok n' <->
              is_Some (values n !! l) /\ l ∈ layers n /\ n' = node_without l n) /\
  (drop_layer n l = Raise KeyError <-> values n !! l = None) /\
  (drop_layer n l = Raise ValueError <-> is_Some (values n !! l) /\ l ∉ layers n).
Proof.
  unfold drop_layer, reset_layer.
  destruct (values n !! l) as [e|] eqn:He; simpl.
  - destruct (decide (l ∈ layers n)) as [Hin|Hin].
    + rewrite (list_remove_in _ _ Hin). simpl. split_and!.
      * intros n'. split.
        -- intros [= <-]. by split_and!; [eexists|..].
        -- by intros (_ & _ & ->).
      * by split.
      * split; [done|]. by intros [_ ?].
    + rewrite (list_remove_notin _ _ Hin). simpl. split_and!.
      * intros n'. split; [done|]. by intros (_ & ? & _).
      * by split.
      * split; [|done]. intros _. by split; [eexists|].
  - split_and!.
    + intros n'. split; [done|]. by intros ([? ?] & _).
    + by split.
    + split; [done|]. by intros ([? ?] & _).
Qed.

(** X6. [reset_layer] on a node removes the entry of the layer and nothing
    else; it raises [KeyError] when there is no entry, so a second
    [reset_layer] of the same layer always raises. *)
Theorem node_reset_layer_once (n : t) (l : string) :
  (reset_layer n l = Raise KeyError <-> values n !! l = None) /\
  forall n', reset_layer n l = Ok n' ->
    values n' = delete l (values n) /\
    layers n' = layers n /\ frozen n' = frozen n /\
    reset_layer n' l = Raise KeyError.
Proof.
  unfold reset_layer. destruct (values n !! l) as [e|] eqn:He; split; try done.
  intros n' [= <-]. simpl. by rewrite lookup_delete_eq.
Qed.

End NodeRecords.

(** Witness of X3: a write at "base" on a new node. *)
Lemma node_write_then_read_witness :
  ConfigNode.set_value (ConfigNode.init ["base"; "override"]) (VInt 4) (Some "base") (Some "file") =
    Ok (ConfigNode.mk ["base"; "override"] (<["base" := (Some "file", VInt 4)]> ∅) false) /\
  ConfigNode.get_value_with_source
    (ConfigNode.mk ["base"; "override"] (<["base" := (Some "file", VInt 4)]> ∅) false)
    (Some "base") = Ok (Some "file", VInt 4) /\
  ConfigNode.layers
    (ConfigNode.mk ["base"; "override"] (<["base" := (Some "file", VInt 4)]> ∅) false) =
    ConfigNode.layers (ConfigNode.init ["base"; "override"]) /\
  exists l : string,
    ConfigNode.values
      (ConfigNode.mk ["base"; "override"] (<["base" := (Some "file", VInt 4)]> ∅) false) =
      <[l := (Some "file", VInt 4)]> (ConfigNode.values (ConfigNode.init ["base"; "override"])) /\
    (if truthy (Some "base") then Some "base" = Some l
     else last (ConfigNode.layers (ConfigNode.init ["base"; "override"])) = Some l).
Proof.
  split; [reflexivity|].
  apply (node_write_then_read (ConfigNode.init ["base"; "override"])). reflexivity.
Defined.

(** Witness of X4: a value written for "staging" on a node that declares
    "base" only. *)
Lemma undeclared_layer_is_hidden_witness :
  ConfigNode.frozen (ConfigNode.init ["base"]) = false /\ "staging" <> "" /\
  ("staging" ∉ ConfigNode.layers (ConfigNode.init ["base"])) /\
  exists n',
    ConfigNode.set_value (ConfigNode.init ["base"]) (VInt 4) (Some "staging") None = Ok n' /\
    ConfigNode.get_value_with_source n' (Some "staging") = Ok (None, VInt 4) /\
    ConfigNode.get_value_with_source n' None =
      ConfigNode.get_value_with_source (ConfigNode.init ["base"]) None /\
    ConfigNode.metadata n' = ConfigNode.metadata (ConfigNode.init ["base"]).
Proof.
  assert ("staging" <> "") as H1 by done.
  assert ("staging" ∉ ConfigNode.layers (ConfigNode.init ["base"])) as H2.
  { simpl. by intros [?|?%elem_of_nil]%elem_of_cons. }
  split; [reflexivity|]. split; [exact H1|]. split; [exact H2|].
  exact (undeclared_layer_is_hidden (ConfigNode.init ["base"]) (VInt 4) "staging" None
           eq_refl H1 H2).
Defined.

(** * Further properties of the configuration tree *)

Section TreeWrites.

Import ConfigTree.


(** The shape of what a write returns. *)
Lemma set_with_metadata_shape v h x name layer source h' x' :
  set_with_metadata v h x name layer source = Ok (h', x') ->
  frozen x = false /\
  exists c, x' = mk (layers x) (assign name c (children x)) false /\
            (is_dict v = false -> h' = h /\ exists n, c = Node n) /\
            (is_dict v = true -> exists t, c = Tree t).
Proof.
  destruct (is_dict v) eqn:Hv.
  - destruct v; try done. rewrite set_with_metadata_dict.
    destruct (frozen x) eqn:Hf; [done|].
    destruct (match lookup name (children x) with
              | Some (Tree c) => Ok (h, c)
              | _ => new_copy h (layers x)
              end) as [[h1 c]| |]; simpl; [|done..].
    destruct (read_dict d h1 c layer source) as [[h2 c']| |]; simpl; [|done..].
    intros [= <- <-]. split; [done|]. exists (Tree c'). split_and!; [done|done|by eexists].
  - rewrite (set_with_metadata_scalar _ _ _ _ _ _ Hv).
    destruct (frozen x) eqn:Hf; [done|].
    destruct (match lookup name (children x) with
              | Some (Node n) => Ok n
              | _ => ls ← deref h (layers x); Ok (ConfigNode.init ls)
              end) as [n| |]; simpl; [|done..].
    destruct (ConfigNode.set_value n v layer source) as [n'| |]; simpl; [|done..].
    intros [= <- <-]. split; [done|]. exists (Node n'). split_and!; [done| |done].
    intros _. split; [done|by eexists].
Qed.

Lemma keys_assign name c cs :
  map fst (assign name c cs) =
    match lookup name cs with
    | Some _ => map fst cs
    | None => map fst cs ++ [name]
    end.
Proof.
  induction cs as [|[k c0] r IH]; simpl; [done|].
  destruct (String.eqb k name); simpl; [done|].
  rewrite IH. by destruct (lookup name r).
Qed.

Lemma write_keeps_other_names_aux v h x name layer source h' x' :
  set_with_metadata v h x name layer source = Ok (h', x') ->
  layers x' = layers x /\
  contains x' name = true /\
  (forall k', k' <> name -> lookup k' (children x') = lookup k' (children x)).
Proof.
  intros Hset. apply set_with_metadata_shape in Hset as (Hf & c & -> & _).
  unfold contains. simpl. rewrite lookup_assign_eq. split_and!; [done..|].
  intros k' Hne. by apply lookup_assign_ne.
Qed.

(** X7. A write that returns keeps the names of the tree in their order and
    adds the written name last when it is new, so [len] grows by at most
    one; the written name is then contained, every other name keeps its
    child, and the tree keeps its layer list. A write returns on trees that
    are not frozen only. *)
Theorem write_keeps_other_names v h x name layer source h' x' :
  set_with_metadata v h x name layer source = Ok (h', x') ->
  frozen x = false /\
  map fst (children x') =
    (if contains x name then map fst (children x) else map fst (children x) ++ [name]) /\
  len x' = (if contains x name then len x else S (len x)) /\
  contains x' name = true /\
  (forall k', k' <> name -> lookup k' (children x') = lookup k' (children x)) /\
  layers x' = layers x.
Proof.
  intros Hset. apply set_with_metadata_shape in Hset as (Hf & c & -> & _).
  unfold contains, len. simpl. rewrite lookup_assign_eq.
  assert (map fst (assign name c (children x)) =
          (if match lookup name (children x) with Some _ => true | None => false end
           then map fst (children x) else map fst (children x) ++ [name])) as Hkeys.
  { rewrite keys_assign. by destruct (lookup name (children x)). }
  split_and!; [done|done| |done| |done].
  - rewrite <- (length_map fst), Hkeys.
    destruct (lookup name (children x)); rewrite ?length_app, length_map; simpl; lia.
  - intros k' Hne. by apply lookup_assign_ne.
Qed.


Lemma read_dict_shape d : forall h x layer source h' x',
  read_dict d h x layer source = Ok (h', x') ->
  layers x' = layers x /\
  (forall k', k' ∉ map fst d -> lookup k' (children x') = lookup k' (children x)) /\
  (forall k, k ∈ map fst d -> contains x' k = true).
Proof.
  induction d as [|[k v] r IH]; intros h x layer source h' x'; simpl.
  - intros [= <- <-]. split_and!; [done..|]. by intros k ?%elem_of_nil.
  - destruct (set_with_metadata v h x k layer source) as [[h1 x1]| |] eqn:Hset; simpl; [|done..].
    intros Hread. destruct (IH _ _ _ _ _ _ Hread) as (Hl & Hother & Hin).
    destruct (write_keeps_other_names_aux _ _ _ _ _ _ _ _ Hset) as (Hl1 & Hc1 & Hother1).
    split_and!.
    + congruence.
    + intros k' Hk'. rewrite not_elem_of_cons in Hk'. destruct Hk' as [Hne Hk'].
      rewrite Hother by done. by apply Hother1.
    + intros k0 Hk0. destruct (decide (k0 ∈ map fst r)) as [Hr|Hr]; [by apply Hin|].
      apply elem_of_cons in Hk0 as [->|?]; [|done].
      unfold contains in *. by rewrite Hother.
Qed.

Lemma set_with_metadata_store v : forall h x name layer source h' x',
  set_with_metadata v h x name layer source = Ok (h', x') -> exists t, h' = h ++ t.
Proof.
  induction v as [v Hv|d IH] using pyval_induction; intros h x name layer source h' x' Hset.
  - apply set_with_metadata_shape in Hset as (_ & c & _ & Hstore & _).
    destruct (Hstore Hv) as [-> _]. exists []. by rewrite app_nil_r.
  - revert Hset. rewrite set_with_metadata_dict. destruct (frozen x); [done|].
    assert (forall h1 c h2 c', read_dict d h1 c layer source = Ok (h2, c') ->
                               exists t, h2 = h1 ++ t) as Hloop.
    { clear -IH. induction IH as [|[k v] r Hv Hr IHr]; intros h1 c h2 c'; simpl.
      - intros [= <- <-]. exists []. by rewrite app_nil_r.
      - destruct (set_with_metadata v h1 c k layer source) as [[h3 c3]| |] eqn:Hset;
          simpl; [|done..].
        intros Hread. destruct (Hv _ _ _ _ _ _ _ Hset) as [t1 ->].
        destruct (IHr _ _ _ _ Hread) as [t2 ->]. exists (t1 ++ t2). by rewrite app_assoc. }
    destruct (lookup name (children x)) as [[n|c]|]; simpl.
    + unfold new_copy. destruct (deref h (layers x)) as [ls| |]; simpl; [|done..].
      destruct (read_dict d _ _ layer source) as [[h2 c']| |] eqn:Hread; simpl; [|done..].
      intros [= <- <-]. destruct (Hloop _ _ _ _ Hread) as [t ->].
      eexists. by rewrite <- app_assoc.
    + destruct (read_dict d h c layer source) as [[h2 c']| |] eqn:Hread; simpl; [|done..].
      intros [= <- <-]. by apply (Hloop _ _ _ _ Hread).
    + unfold new_copy. destruct (deref h (layers x)) as [ls| |]; simpl; [|done..].
      destruct (read_dict d _ _ layer source) as [[h2 c']| |] eqn:Hread; simpl; [|done..].
      intros [= <- <-]. destruct (Hloop _ _ _ _ Hread) as [t ->].
      eexists. by rewrite <- app_assoc.
Qed.

(** X9. A bulk load that returns merges into the tree: the names that the
    mapping does not mention keep their children, every name of the mapping
    is contained afterwards, and the tree keeps its layer list. It never
    changes a layer list that exists: the store afterwards is the store
    before, followed by the lists of the trees created. *)
Theorem read_dict_merges d h x layer source h' x' :
  read_dict d h x layer source = Ok (h', x') ->
  (exists t, h' = h ++ t) /\
  layers x' = layers x /\
  (forall k', k' ∉ map fst d -> lookup k' (children x') = lookup k' (children x)) /\
  (forall k, k ∈ map fst d -> contains x' k = true).
Proof.
  intros Hread. split; [|by eapply read_dict_shape].
  revert h x Hread. induction d as [|[k v] r IH]; intros h x; simpl.
  - intros [= <- <-]. exists []. by rewrite app_nil_r.
  - destruct (set_with_metadata v h x k layer source) as [[h1 x1]| |] eqn:Hset; simpl; [|done..].
    intros Hread. destruct (set_with_metadata_store _ _ _ _ _ _ _ _ Hset) as [t1 ->].
    destruct (IH _ _ Hread) as [t2 ->]. exists (t1 ++ t2). by rewrite app_assoc.
Qed.

(** Loading a mapping into a tree without children. *)
Lemma load_into_empty (h : store) (l : loc) (layer source : option string)
    (d : list (string * pyval)) :
  l < length h -> unique_keys (VDict d) = true ->
  exists h' x',
    read_dict d h (mk l [] false) layer source = Ok (h', x') /\
    layers x' = l /\
    forall p w, (p, w) ∈ leaves (VDict d) ->
      exists n, descend x' p = Some (Node n) /\
                ConfigNode.get_value_with_source n layer = Ok (source, w).
Proof.
  intros Hl Hu.
  destruct (read_spec_all d h (mk l [] false) layer source)
    as (h' & x' & Hread & _ & _ & _ & Hall).
  { rewrite writable_unfold. simpl. by rewrite bool_decide_eq_true_2. }
  exists h', x'. split; [done|]. split.
  { by destruct (read_dict_shape _ _ _ _ _ _ _ Hread) as [-> _]. }
  intros p w Hin. apply leaves_dict_elem in Hin as (k & v & p' & -> & Hkv & Hp).
  destruct (Hall Hu _ _ Hkv) as (c & Hc & Hholds).
  destruct (Hholds _ _ Hp) as (n & Hn & Hget).
  exists n. split; [|done]. by rewrite descend_cons, Hc.
Qed.

(** X10. A tree constructed with initial data holds every leaf of the data
    at the first declared layer, with the source "initial data": on the list
    object passed as [layers] when it is not empty, which the tree then
    shares with the caller, and on a new list ["base"] when no list is
    passed. *)
Theorem init_with_data (h : store) (kv : string * pyval) (d : list (string * pyval)) :
  unique_keys (VDict (kv :: d)) = true ->
  (forall (l : loc) (l0 : string) (ls : list string),
      h !! l = Some (l0 :: ls) ->
      exists h' x',
        init h (Some (kv :: d)) (Some l) = Ok (h', x') /\
        layers x' = l /\
        forall p w, (p, w) ∈ leaves (VDict (kv :: d)) ->
          exists n, descend x' p = Some (Node n) /\
                    ConfigNode.get_value_with_source n (Some l0) =
                      Ok (Some "initial data", w)) /\
  (exists h' x',
      init h (Some (kv :: d)) None = Ok (h', x') /\
      layers x' = length h /\
      forall p w, (p, w) ∈ leaves (VDict (kv :: d)) ->
        exists n, descend x' p = Some (Node n) /\
                  ConfigNode.get_value_with_source n (Some "base") =
                    Ok (Some "initial data", w)).
Proof.
  intros Hu. split.
  - intros l l0 ls Hl. unfold init, new_shared. rewrite (deref_Some _ _ _ Hl).
    cbn -[read_dict leaves unique_keys]. rewrite (deref_Some _ _ _ Hl).
    cbn -[read_dict leaves unique_keys].
    apply load_into_empty; [by eapply lookup_lt_Some|done].
  - unfold init. cbn -[read_dict leaves unique_keys]. unfold deref.
    rewrite lookup_app_r by done. rewrite Nat.sub_diag.
    cbn -[read_dict leaves unique_keys].
    apply (load_into_empty (h ++ [["base"]]) (length h)); [|done].
    rewrite length_app. simpl. lia.
Qed.

(** A bulk load only adds lists to the store. *)
Lemma read_dict_store d : forall h x layer source h' x',
  read_dict d h x layer source = Ok (h', x') -> exists t, h' = h ++ t.
Proof.
  induction d as [|[k v] r IH]; intros h x layer source h' x'; simpl.
  - intros [= <- <-]. exists []. by rewrite app_nil_r.
  - destruct (set_with_metadata v h x k layer source) as [[h1 x1]| |] eqn:Hset; simpl; [|done..].
    intros Hread. destruct (set_with_metadata_store _ _ _ _ _ _ _ _ Hset) as [t1 ->].
    destruct (IH _ _ _ _ _ _ Hread) as [t2 ->]. exists (t1 ++ t2). by rewrite app_assoc.
Qed.

(** C9, as the code behaves. On a frozen tree a write raises TypeError,
    whatever the name is bound to. On a tree that is not frozen, writing a
    value that is not a mapping under a name bound to a child tree
    returns, and afterwards the name is bound to a new node on a copy of
    the tree's layers whose only entry is the value written, whatever the
    child tree held; writing a mapping under a name bound to a node
    returns, and afterwards the name is bound to a new tree on a new list,
    a copy of the tree's layers, that holds the names of the mapping and
    its leaves and nothing of the node. In both cases the names of the
    tree keep their order, every other name keeps its child, and no
    existing layer list changes. *)
Theorem assignment_replaces_child (h : store) (x : t) (name : string)
    (layer source : option string) (ls : list string) :
  h !! layers x = Some ls ->
  (forall (c : t) (v : pyval),
      lookup name (children x) = Some (Tree c) ->
      is_dict v = false ->
      if frozen x then set_with_metadata v h x name layer source = Raise TypeError
      else
        exists (lyr : string) (x' : t),
          (if truthy layer then Some (default "" layer)
           else last (ConfigNode.layers (ConfigNode.init ls))) = Some lyr /\
          set_with_metadata v h x name layer source = Ok (h, x') /\
          lookup name (children x') =
            Some (Node (ConfigNode.mk (ConfigNode.layers (ConfigNode.init ls))
                                      (<[lyr := (source, v)]> ∅) false)) /\
          map fst (children x') = map fst (children x) /\
          (forall k, k <> name -> lookup k (children x') = lookup k (children x)) /\
          layers x' = layers x /\ frozen x' = false) /\
  (forall (n : ConfigNode.t) (d : list (string * pyval)),
      lookup name (children x) = Some (Node n) ->
      if frozen x then set_with_metadata (VDict d) h x name layer source = Raise TypeError
      else
        exists (h' : store) (c' x' : t),
          set_with_metadata (VDict d) h x name layer source = Ok (h', x') /\
          lookup name (children x') = Some (Tree c') /\
          read_dict d (h ++ [ConfigNode.layers (ConfigNode.init ls)])
            (mk (length h) [] false) layer source = Ok (h', c') /\
          layers c' = length h /\ frozen c' = false /\
          (exists t, h' = h ++ [ConfigNode.layers (ConfigNode.init ls)] ++ t) /\
          (forall k, contains c' k = true <-> k ∈ map fst d) /\
          (unique_keys (VDict d) = true ->
           forall p w, (p, w) ∈ leaves (VDict d) ->
             exists n', descend x' (name :: p) = Some (Node n') /\
                        ConfigNode.get_value_with_source n' layer = Ok (source, w)) /\
          map fst (children x') = map fst (children x) /\
          (forall k, k <> name -> lookup k (children x') = lookup k (children x)) /\
          layers x' = layers x /\ frozen x' = false).
Proof.
  intros Hls. split.
  - intros c v Hc Hv. rewrite (set_with_metadata_scalar _ _ _ _ _ _ Hv).
    destruct (frozen x) eqn:Hf; [done|]. rewrite Hc, (deref_Some _ _ _ Hls). simpl.
    unfold ConfigNode.set_value, last_item. simpl.
    assert (exists lyr,
      (if truthy layer then Some (default "" layer)
       else last match ls with [] => ["base"] | _ :: _ => ls end) = Some lyr) as [lyr Hlyr].
    { destruct (truthy layer); [by eexists|].
      destruct (last match ls with [] => ["base"] | _ :: _ => ls end) as [lyr|] eqn:Hlast;
        [by eexists|].
      exfalso. apply last_None in Hlast. by destruct ls. }
    exists lyr. eexists. split; [done|].
    assert ((if truthy layer then Ok (default "" layer)
             else match last match ls with [] => ["base"] | _ :: _ => ls end with
                  | Some a => Ok a
                  | None => Raise IndexError
                  end) = Ok lyr) as ->.
    { destruct (truthy layer); [congruence|].
      destruct (last match ls with [] => ["base"] | _ :: _ => ls end); congruence. }
    simpl. split; [reflexivity|]. simpl. rewrite lookup_assign_eq, keys_assign, Hc.
    split_and!; [done|done| |done|done].
    intros k Hne. by apply lookup_assign_ne.
  - intros n d Hn. rewrite set_with_metadata_dict.
    destruct (frozen x) eqn:Hf; [done|]. rewrite Hn.
    unfold new_copy. rewrite (deref_Some _ _ _ Hls). simpl.
    set (copy := match ls with [] => ["base"] | _ :: _ => ls end).
    assert (writable (length (h ++ [copy])) (mk (length h) [] false) = true) as Hw.
    { rewrite writable_unfold, length_app. simpl. rewrite bool_decide_eq_true_2; [done|lia]. }
    destruct (read_spec_all d (h ++ [copy]) (mk (length h) [] false) layer source Hw)
      as (h' & c' & Hread & Hw' & _ & _ & Hall).
    rewrite Hread. simpl. exists h', c'. eexists. split; [reflexivity|].
    cbn [children layers frozen]. rewrite lookup_assign_eq, keys_assign, Hn.
    destruct (read_dict_shape _ _ _ _ _ _ _ Hread) as (Hl & Hother & Hin).
    destruct (read_dict_store _ _ _ _ _ _ _ Hread) as [t Ht].
    split_and!; [done|done|done| | | | |done| |done|done].
    + destruct c' as [l' cs' f']. rewrite writable_unfold in Hw'.
      simpl. by destruct f'.
    + exists t. by rewrite Ht, <- app_assoc.
    + intros k. split; [|apply Hin].
      intros Hk. destruct (decide (k ∈ map fst d)) as [|Hnot]; [done|].
      unfold contains in Hk. by rewrite (Hother _ Hnot) in Hk.
    + intros Hu p w Hp. apply leaves_dict_elem in Hp as (k & v & p' & -> & Hkv & Hp).
      destruct (Hall Hu _ _ Hkv) as (c & Hc & Hholds).
      destruct (Hholds _ _ Hp) as (n' & Hn' & Hget).
      exists n'. split; [|done].
      rewrite descend_cons. by rewrite Hc.
    + intros k Hne. by apply lookup_assign_ne.
Qed.

End TreeWrites.

Lemma mixed_root_built : mixed_tree = Ok ([["base"]; ["base"]], mixed_root).
Proof. vm_compute. reflexivity. Qed.

(** Witness of C9: on the tree loaded with [{"a": {"b": 1}, "n": 2}], a
    number written over the child tree "a" and a mapping written over the
    node "n". *)
Lemma assignment_replaces_child_witness :
  [["base"]; ["base"]] !! ConfigTree.layers mixed_root = Some ["base"] /\
  ConfigTree.lookup "a" (ConfigTree.children mixed_root) =
    Some (ConfigTree.Tree
            (ConfigTree.mk 1
               [("b", ConfigTree.Node
                        (ConfigNode.mk ["base"] (<["base" := (None, VInt 1)]> ∅) false))]
               false)) /\
  is_dict (VInt 3) = false /\
  ConfigTree.lookup "n" (ConfigTree.children mixed_root) =
    Some (ConfigTree.Node
            (ConfigNode.mk ["base"] (<["base" := (None, VInt 2)]> ∅) false)) /\
  (exists (lyr : string) (x' : ConfigTree.t),
      last (ConfigNode.layers (ConfigNode.init ["base"])) = Some lyr /\
      ConfigTree.set_with_metadata (VInt 3) [["base"]; ["base"]] mixed_root "a" None None =
        Ok ([["base"]; ["base"]], x') /\
      ConfigTree.lookup "a" (ConfigTree.children x') =
        Some (ConfigTree.Node
                (ConfigNode.mk (ConfigNode.layers (ConfigNode.init ["base"]))
                               (<[lyr := (None, VInt 3)]> ∅) false)) /\
      map fst (ConfigTree.children x') = map fst (ConfigTree.children mixed_root) /\
      (forall k, k <> "a" ->
                 ConfigTree.lookup k (ConfigTree.children x') =
                   ConfigTree.lookup k (ConfigTree.children mixed_root)) /\
      ConfigTree.layers x' = ConfigTree.layers mixed_root /\
      ConfigTree.frozen x' = false) /\
  (exists (h' : store) (c' x' : ConfigTree.t),
      ConfigTree.set_with_metadata (VDict [("k", VInt 4)]) [["base"]; ["base"]]
        mixed_root "n" None None = Ok (h', x') /\
      ConfigTree.lookup "n" (ConfigTree.children x') = Some (ConfigTree.Tree c') /\
      ConfigTree.read_dict [("k", VInt 4)]
        ([["base"]; ["base"]] ++ [ConfigNode.layers (ConfigNode.init ["base"])])
        (ConfigTree.mk (length [["base"]; ["base"]]) [] false) None None = Ok (h', c') /\
      ConfigTree.layers c' = length [["base"]; ["base"]] /\
      ConfigTree.frozen c' = false /\
      (exists t, h' = [["base"]; ["base"]] ++
                        [ConfigNode.layers (ConfigNode.init ["base"])] ++ t) /\
      (forall k, ConfigTree.contains c' k = true <-> k ∈ map fst [("k", VInt 4)]) /\
      (unique_keys (VDict [("k", VInt 4)]) = true ->
       forall p w, (p, w) ∈ leaves (VDict [("k", VInt 4)]) ->
         exists n', descend x' ("n" :: p) = Some (ConfigTree.Node n') /\
                    ConfigNode.get_value_with_source n' None = Ok (None, w)) /\
      map fst (ConfigTree.children x') = map fst (ConfigTree.children mixed_root) /\
      (forall k, k <> "n" ->
                 ConfigTree.lookup k (ConfigTree.children x') =
                   ConfigTree.lookup k (ConfigTree.children mixed_root)) /\
      ConfigTree.layers x' = ConfigTree.layers mixed_root /\
      ConfigTree.frozen x' = false).
Proof.
  split; [reflexivity|]. split; [reflexivity|]. split; [reflexivity|].
  split; [reflexivity|]. split.
  - apply (proj1 (assignment_replaces_child [["base"]; ["base"]] mixed_root "a"
                    None None ["base"] eq_refl)
             (ConfigTree.mk 1
                [("b", ConfigTree.Node
                         (ConfigNode.mk ["base"] (<["base" := (None, VInt 1)]> ∅) false))]
                false)
             (VInt 3) eq_refl eq_refl).
  - apply (proj2 (assignment_replaces_child [["base"]; ["base"]] mixed_root "n"
                    None None ["base"] eq_refl)
             (ConfigNode.mk ["base"] (<["base" := (None, VInt 2)]> ∅) false)
             [("k", VInt 4)] eq_refl).
Defined.

(** C9 as stated fails on a frozen tree: with "a" bound to a child tree
    and "n" to a node, writing a number under "a" and writing a mapping
    under "n" both raise TypeError, so neither child is replaced. *)
Lemma assignment_to_frozen_tree_raises :
  exists (h : store) (x c : ConfigTree.t) (n : ConfigNode.t),
    frozen_tree = Ok (h, x) /\
    ConfigTree.lookup "a" (ConfigTree.children x) = Some (ConfigTree.Tree c) /\
    ConfigTree.lookup "n" (ConfigTree.children x) = Some (ConfigTree.Node n) /\
    ConfigTree.set_with_metadata (VInt 3) h x "a" None None = Raise TypeError /\
    ConfigTree.setattr h x "a" (VInt 3) = Raise TypeError /\
    ConfigTree.set_with_metadata (VDict [("k", VInt 4)]) h x "n" None None =
      Raise TypeError.
Proof.
  eexists _, _, _, _. split; [vm_compute; reflexivity|].
  split; [reflexivity|]. split; [reflexivity|].
  split; [reflexivity|]. split; reflexivity.
Qed.


(** Witness of X10: a tree constructed on the layers ["base", "override"]
    with a nested mapping. *)
Lemma init_with_data_witness :
  unique_keys (VDict [("a", VDict [("b", VInt 1)]); ("c", VStr "s")]) = true /\
  exists h' x',
    ConfigTree.init [["base"; "override"]]
      (Some [("a", VDict [("b", VInt 1)]); ("c", VStr "s")]) (Some 0) = Ok (h', x') /\
    ConfigTree.layers x' = 0 /\
    forall p w, (p, w) ∈ leaves (VDict [("a", VDict [("b", VInt 1)]); ("c", VStr "s")]) ->
      exists n, descend x' p = Some (ConfigTree.Node n) /\
                ConfigNode.get_value_with_source n (Some "base") =
                  Ok (Some "initial data", w).
Proof.
  split; [reflexivity|].
  apply (proj1 (init_with_data [["base"; "override"]] ("a", VDict [("b", VInt 1)])
                  [("c", VStr "s")] eq_refl) 0 "base" ["override"]).
  reflexivity.
Defined.

Section TreeMetadata.

Import ConfigTree.

Lemma metadata_None x : metadata x None = Raise AttributeError.
Proof. by destruct x. Qed.

Lemma metadata_unfold x k :
  metadata x (Some k) =
    match lookup k (children x) with
    | Some (Node n) => Ok (ConfigNode.metadata n)
    | Some (Tree c) => metadata c None
    | None =>
        match lookup (fst (partition_dot k)) (children x) with
        | Some (Tree c) => metadata c (Some (snd (partition_dot k)))
        | Some (Node _) => Raise TypeError
        | None => Raise KeyError
        end
    end.
Proof.
  destruct x as [l cs f]. simpl.
  destruct (lookup k cs) as [c|] eqn:Hk.
  - clear -Hk. induction cs as [|[k0 c0] r IH]; simpl in *; [done|].
    destruct (String.eqb k0 k); [|by apply IH].
    injection Hk as <-. by destruct c0.
  - destruct (partition_dot k) as [hd tl]. simpl. clear Hk.
    induction cs as [|[k0 c0] r IH]; simpl in *; [done|].
    destruct (String.eqb k0 hd); [by destruct c0|apply IH].
Qed.

Lemma partition_dot_dotless k : dotless k = true -> partition_dot k = (k, "").
Proof.
  induction k as [|a k IH]; simpl; [done|].
  destruct (Ascii.eqb a "."%char); simpl; [done|]. intros Hk. by rewrite IH.
Qed.

Lemma partition_dot_append k r :
  dotless k = true -> partition_dot (String.append k (String "."%char r)) = (k, r).
Proof.
  induction k as [|a k IH]; simpl; [done|].
  destruct (Ascii.eqb a "."%char); simpl; [done|]. intros Hk. by rewrite IH.
Qed.

Lemma dotless_append k r : dotless (String.append k (String "."%char r)) = false.
Proof.
  induction k as [|a k IH]; simpl; [done|]. rewrite IH. apply andb_false_r.
Qed.

Lemma names_dotless_lookup x k c :
  names_dotless x = true -> lookup k (children x) = Some c ->
  dotless k = true /\ match c with Tree t => names_dotless t = true | Node _ => True end.
Proof.
  destruct x as [l cs f]. simpl. induction cs as [|[k0 c0] r IH]; simpl; [done|].
  rewrite !andb_true_iff. intros [[Hk0 Hc0] Hr].
  destruct (String.eqb_spec k0 k) as [->|Hne]; [|by apply IH].
  intros [= <-]. split; [done|]. by destruct c0.
Qed.

(** X11. On a tree whose names hold no ".", [metadata] of the names of a
    path joined by "." gives the metadata of the node the path leads to. *)
Theorem metadata_dotted_path (x : t) (p : list string) (n : ConfigNode.t) :
  names_dotless x = true ->
  descend x p = Some (Node n) ->
  metadata x (Some (join_dots p)) = Ok (ConfigNode.metadata n).
Proof.
  revert x. induction p as [|k rest IH]; intros x Hnames; [done|].
  cbn [descend]. destruct (lookup k (children x)) as [[n0|c]|] eqn:Hk; [| |done].
  - destruct rest; [|done]. intros [= ->]. simpl. by rewrite metadata_unfold, Hk.
  - intros Hd. destruct (names_dotless_lookup _ _ _ Hnames Hk) as [Hdot Hc].
    destruct rest as [|k' rest]; [done|].
    change (join_dots (k :: k' :: rest))
      with (String.append k (String "."%char (join_dots (k' :: rest)))).
    rewrite metadata_unfold.
    destruct (lookup (String.append k (String "."%char (join_dots (k' :: rest)))) (children x))
      as [c'|] eqn:Hjoin.
    { apply (names_dotless_lookup _ _ _ Hnames) in Hjoin as [Hbad _].
      by rewrite dotless_append in Hbad. }
    rewrite (partition_dot_append _ _ Hdot). simpl fst. simpl snd. rewrite Hk.
    by apply IH.
Qed.

(** X12. [metadata] raises [AttributeError] when called without a key and
    when the key names a child tree; it raises [KeyError] for a name
    without "." that has no child, and [TypeError] for a dotted key whose
    first name is a node. *)
Theorem metadata_errors (x : t) :
  metadata x None = Raise AttributeError /\
  (forall k c, lookup k (children x) = Some (Tree c) ->
               metadata x (Some k) = Raise AttributeError) /\
  (forall k, dotless k = true -> lookup k (children x) = None ->
             metadata x (Some k) = Raise KeyError) /\
  (forall k r n,
      dotless k = true ->
      lookup (String.append k (String "."%char r)) (children x) = None ->
      lookup k (children x) = Some (Node n) ->
      metadata x (Some (String.append k (String "."%char r))) = Raise TypeError).
Proof.
  split_and!.
  - apply metadata_None.
  - intros k c Hk. by rewrite metadata_unfold, Hk, metadata_None.
  - intros k Hdot Hk. rewrite metadata_unfold, Hk, (partition_dot_dotless _ Hdot).
    simpl fst. by rewrite Hk.
  - intros k r n Hdot Hjoin Hk.
    rewrite metadata_unfold, Hjoin, (partition_dot_append _ _ Hdot). simpl fst.
    by rewrite Hk.
Qed.

End TreeMetadata.

(** Witness of X11: the node "b" under the tree "a". *)
Lemma metadata_dotted_path_witness :
  names_dotless shared_root = true /\
  descend shared_root ["a"; "b"] =
    Some (ConfigTree.Node
            (ConfigNode.mk ["base"; "clinical"]
               (<["clinical" := (None, VInt 2)]> (<["base" := (None, VInt 1)]> ∅)) false)) /\
  ConfigTree.metadata shared_root (Some (join_dots ["a"; "b"])) =
    Ok (ConfigNode.metadata
          (ConfigNode.mk ["base"; "clinical"]
             (<["clinical" := (None, VInt 2)]> (<["base" := (None, VInt 1)]> ∅)) false)).
Proof.
  split; [reflexivity|]. split; [reflexivity|].
  apply metadata_dotted_path; reflexivity.
Defined.

Section TreeLayers.

Import ConfigTree.

Lemma reset_children_lookup layer keys prefix cs cs' k c :
  reset_children layer keys prefix cs = Ok cs' ->
  lookup k cs = Some c ->
  exists c',
    lookup k cs' = Some c' /\
    if bool_decide (prefix ++ [k] ∈ keys) then c' = c
    else match c with
         | Node n => exists n', ConfigNode.reset_layer n layer = Ok n' /\ c' = Node n'
         | Tree c0 =>
             exists c1, _reset_layer c0 layer keys (prefix ++ [k]) = Ok c1 /\ c' = Tree c1
         end.
Proof.
  revert cs'. induction cs as [|[k0 c0] r IH]; intros cs'; [done|].
  cbn [reset_children lookup].
  destruct (if bool_decide (prefix ++ [k0] ∈ keys) then Ok c0
            else match c0 with
                 | Tree c1 =>
                     c2 ← _reset_layer c1 layer keys (prefix ++ [k0]); Ok (Tree c2)
                 | Node n => n' ← ConfigNode.reset_layer n layer; Ok (Node n')
                 end) as [c0'| |] eqn:Hhead; simpl; [|done..].
  destruct (reset_children layer keys prefix r) as [r'| |]; simpl; [|done..].
  intros [= <-]. simpl. destruct (String.eqb_spec k0 k) as [->|Hne].
  - intros [= ->]. exists c0'. split; [done|].
    destruct (bool_decide (prefix ++ [k] ∈ keys)); [by injection Hhead|].
    destruct c as [n|c1].
    + destruct (ConfigNode.reset_layer n layer) as [n'| |]; simpl in Hhead; [|done..].
      injection Hhead as <-. by exists n'.
    + destruct (_reset_layer c1 layer keys (prefix ++ [k])) as [c2| |]; simpl in Hhead; [|done..].
      injection Hhead as <-. by exists c2.
  - intros Hk. by apply IH.
Qed.

Lemma reset_layer_descend layer keys p :
  forall x prefix x' n,
    _reset_layer x layer keys prefix = Ok x' ->
    descend x p = Some (Node n) ->
    descend x' p =
      Some (Node (if preserved keys prefix p then n else node_reset layer n)) /\
    (preserved keys prefix p = false -> is_Some (ConfigNode.values n !! layer)).
Proof.
  induction p as [|k rest IH]; intros [l cs f] prefix x' n; [done|].
  rewrite reset_layer_unfold.
  destruct (reset_children layer keys prefix cs) as [cs'| |] eqn:Hcs; simpl; [|done..].
  intros [= <-]. simpl.
  destruct (lookup k cs) as [c|] eqn:Hk; [|done].
  destruct (reset_children_lookup _ _ _ _ _ _ _ Hcs Hk) as (c' & -> & Hc').
  destruct (bool_decide (prefix ++ [k] ∈ keys)); simpl.
  - subst c'. destruct c as [n0|c0].
    + destruct rest; [|done]. by intros [= ->].
    + intros Hd. by rewrite Hd.
  - destruct c as [n0|c0].
    + destruct Hc' as (n' & Hreset & ->). destruct rest; [|done]. intros [= ->]. simpl.
      revert Hreset. unfold ConfigNode.reset_layer, node_reset.
      destruct (ConfigNode.values n !! layer) as [e|]; [|done].
      intros [= <-]. split; [done|]. by eexists.
    + destruct Hc' as (c1 & Hreset & ->). intros Hd.
      by apply (IH _ _ _ _ Hreset Hd).
Qed.

Lemma reset_layer_fields layer keys x prefix x' :
  _reset_layer x layer keys prefix = Ok x' ->
  layers x' = layers x /\ frozen x' = frozen x /\
  map fst (children x') = map fst (children x).
Proof.
  destruct x as [l cs f]. rewrite reset_layer_unfold.
  destruct (reset_children layer keys prefix cs) as [cs'| |] eqn:Hcs; simpl; [|done..].
  intros [= <-]. simpl. split_and!; [done..|].
  revert cs' Hcs. induction cs as [|[k0 c0] r IH]; intros cs'; simpl.
  - by intros [= <-].
  - destruct (if bool_decide (prefix ++ [k0] ∈ keys) then Ok c0 else _) as [c0'| |];
      simpl; [|done..].
    destruct (reset_children layer keys prefix r) as [r'| |]; simpl; [|done..].
    intros [= <-]. simpl. f_equal. by apply IH.
Qed.

(** X13. A [reset_layer] that returns leaves the tree, its names and its
    layer lists as they are and changes the nodes only: a node whose path
    goes through a preserved key is untouched, every other node held an
    entry for the layer and has lost exactly that entry. *)
Theorem tree_reset_layer_nodes (x x' : t) (layer : string) (preserve_keys : list string) :
  reset_layer x layer preserve_keys = Ok x' ->
  layers x' = layers x /\ frozen x' = frozen x /\
  map fst (children x') = map fst (children x) /\
  forall (p : list string) (n : ConfigNode.t),
    descend x p = Some (Node n) ->
    descend x' p =
      Some (Node (if preserved (map split_dot preserve_keys) [] p then n
                  else node_reset layer n)) /\
    (preserved (map split_dot preserve_keys) [] p = false ->
     is_Some (ConfigNode.values n !! layer)).
Proof.
  unfold reset_layer. intros Hreset.
  destruct (reset_layer_fields _ _ _ _ _ Hreset) as (Hl & Hf & Hk).
  split_and!; [done..|]. intros p n. by apply reset_layer_descend.
Qed.

Lemma reset_layer_first_leaf layer x :
  forall (n : ConfigNode.t) (prefix : list string),
    first_leaf x = Some n -> ConfigNode.values n !! layer = None ->
    _reset_layer x layer [] prefix = Raise KeyError.
Proof.
  induction x as [l cs f IH] using tree_induction. intros n prefix Hfirst Hnone.
  rewrite reset_layer_unfold. destruct cs as [|[k c] r]; [done|].
  apply Forall_cons in IH as [Hc _]. cbn [reset_children].
  rewrite bool_decide_eq_false_2 by apply not_elem_of_nil.
  simpl in *. destruct c as [n0|c0].
  - injection Hfirst as ->. unfold ConfigNode.reset_layer. by rewrite Hnone.
  - by rewrite (Hc n _ Hfirst Hnone).
Qed.

(** X14. [drop_layer] and [reset_layer] need the values they remove: when
    the first node the traversal reaches holds no value for the layer, both
    raise [KeyError], whether or not the layer is declared. *)
Theorem layer_removal_needs_values (x : t) (layer : string) (n : ConfigNode.t) :
  first_leaf x = Some n ->
  ConfigNode.values n !! layer = None ->
  (forall h, drop_layer h x layer = Raise KeyError) /\
  reset_layer x layer [] = Raise KeyError.
Proof.
  intros Hfirst Hnone. split.
  - intros h. by apply (drop_layer_first_leaf _ _ n).
  - unfold reset_layer. simpl. by apply (reset_layer_first_leaf _ _ n).
Qed.

Lemma freeze_idempotent x : freeze (freeze x) = freeze x.
Proof.
  induction x as [l cs f IH] using tree_induction.
  rewrite !freeze_unfold. f_equal. rewrite map_map. simpl.
  induction IH as [|[k c] r Hc Hr IHr]; simpl; [done|].
  f_equal; [|done]. destruct c as [n|c]; simpl in *; by rewrite ?Hc.
Qed.

(** X15. [freeze] changes no read of what exists and ends the creation of
    children by reads: freezing twice is freezing once, a chained read that
    leads to a node gives what it gave before, and on the frozen tree and
    every tree below it the read of a name without a child raises
    [KeyError]. *)
Theorem frozen_reads (x : t) :
  freeze (freeze x) = freeze x /\
  (forall h p n layer,
      descend x p = Some (Node n) ->
      read_path h (freeze x) p layer = read_path h x p layer) /\
  (forall h p c name layer,
      descend (freeze x) p = Some (Tree c) ->
      lookup name (children c) = None ->
      get_from_layer h c name layer = Raise KeyError).
Proof.
  split_and!.
  - apply freeze_idempotent.
  - intros h p n layer Hd.
    assert (descend (freeze x) p = Some (Node (ConfigNode.freeze n))) as Hd'.
    { by rewrite descend_freeze, Hd. }
    by rewrite (read_path_node _ _ _ _ _ Hd), (read_path_node _ _ _ _ _ Hd').
  - intros h p c name layer. rewrite descend_freeze.
    destruct (descend x p) as [[n|c0]|]; simpl; try done.
    intros [= <-] Hname. unfold get_from_layer. by rewrite Hname, frozen_freeze.
Qed.

(** X16. A read creates the child on the layer list of its parent, and this
    breaks a later [drop_layer]: on a tree without children that declares
    the layer once, [drop_layer] returns, but after the read of a name
    without a child it raises [ValueError], the new child having removed
    the layer from the list before the tree looks for it. *)
Theorem read_then_drop_layer (h : store) (x : t) (name layer : string)
    (asked : option string) (ls : list string) :
  frozen x = false -> children x = [] ->
  h !! layers x = Some ls ->
  layer ∈ ls -> layer ∉ remove_first layer ls ->
  drop_layer h x layer = Ok (<[layers x := remove_first layer ls]> h, x) /\
  exists h1 x1 c,
    get_from_layer h x name asked = Ok (h1, x1, RTree c) /\
    layers c = layers x /\
    drop_layer h1 x1 layer = Raise ValueError.
Proof.
  destruct x as [l cs f]. cbn [frozen children layers]. intros -> -> Hls Hin Hnot. split.
  - rewrite drop_layer_unfold. simpl. rewrite (deref_Some _ _ _ Hls). simpl.
    by rewrite (list_remove_in _ _ Hin).
  - unfold get_from_layer, new_shared. cbn [frozen children layers lookup].
    rewrite (deref_Some _ _ _ Hls).
    destruct ls as [|l0 ls]; [by apply elem_of_nil in Hin|].
    cbn [mbind result_bind assign]. remember (l0 :: ls) as ls0 eqn:Hls0. clear Hls0.
    eexists _, _, _. split; [reflexivity|]. split; [done|].
    rewrite drop_layer_unfold. cbn [drop_children]. rewrite drop_layer_unfold.
    cbn [drop_children]. simpl. rewrite (deref_Some _ _ _ Hls). simpl.
    rewrite (list_remove_in _ _ Hin). simpl. unfold deref.
    rewrite list_lookup_insert_eq by (by eapply lookup_lt_Some). simpl.
    by rewrite (list_remove_notin _ _ Hnot).
Qed.

End TreeLayers.

(** Witness of X13: the scenario tree, reset at "override". *)
Lemma tree_reset_layer_nodes_witness :
  exists x',
    ConfigTree.reset_layer scenario_root "override" [] = Ok x' /\
    ConfigTree.layers x' = ConfigTree.layers scenario_root /\
    ConfigTree.frozen x' = ConfigTree.frozen scenario_root /\
    map fst (ConfigTree.children x') = map fst (ConfigTree.children scenario_root) /\
    forall (p : list string) (n : ConfigNode.t),
      descend scenario_root p = Some (ConfigTree.Node n) ->
      descend x' p =
        Some (ConfigTree.Node (if preserved (map split_dot []) [] p then n
                               else node_reset "override" n)) /\
      (preserved (map split_dot []) [] p = false ->
       is_Some (ConfigNode.values n !! "override")).
Proof.
  eexists. split; [vm_compute; reflexivity|].
  apply (tree_reset_layer_nodes scenario_root _ "override" []).
  vm_compute. reflexivity.
Defined.

(** Witness of X14: "staging" holds no value in the scenario tree. *)
Lemma layer_removal_needs_values_witness :
  first_leaf scenario_root =
    Some (ConfigNode.mk ["override"; "base"]
            (<["override" := (Some "cli", VInt 2)]>
               (<["base" := (Some "defaults", VInt 1)]> ∅)) false) /\
  (forall h, ConfigTree.drop_layer h scenario_root "staging" = Raise KeyError) /\
  ConfigTree.reset_layer scenario_root "staging" [] = Raise KeyError.
Proof.
  split; [reflexivity|].
  apply (layer_removal_needs_values scenario_root "staging" _ eq_refl).
  vm_compute. reflexivity.
Defined.

(** Witness of X16: a new tree on the layers ["base", "clinical"]. *)
Lemma read_then_drop_layer_witness :
  ConfigTree.drop_layer [["base"; "clinical"]] (ConfigTree.mk 0 [] false) "clinical" =
    Ok (<[0 := remove_first "clinical" ["base"; "clinical"]]> [["base"; "clinical"]],
        ConfigTree.mk 0 [] false) /\
  exists h1 x1 c,
    ConfigTree.get_from_layer [["base"; "clinical"]] (ConfigTree.mk 0 [] false) "a" None =
      Ok (h1, x1, ConfigTree.RTree c) /\
    ConfigTree.layers c = 0 /\
    ConfigTree.drop_layer h1 x1 "clinical" = Raise ValueError.
Proof.
  apply (read_then_drop_layer [["base"; "clinical"]] (ConfigTree.mk 0 [] false)
           "a" "clinical" None ["base"; "clinical"] eq_refl eq_refl eq_refl).
  - apply list_elem_of_further, list_elem_of_here.
  - simpl. by intros [?|?%elem_of_nil]%elem_of_cons.
Defined.

(** * Further properties of the event manager *)

Section Dispatch.

Context {W : Type}.
Implicit Types (m : EventManager W) (ch : EventChannel W) (l : Listener W).

Lemma call_all_app (a b : list (Listener W)) ev (w : W) :
  call_all (a ++ b) ev w = (w' ← call_all a ev w; call_all b ev w').
Proof.
  revert w. induction a as [|x a IH]; intros w; simpl; [done|].
  destruct (call x ev w); simpl; [apply IH|done..].
Qed.

(** X17. An emission stops at the first listener that raises: the listeners
    called before it have run, the exception is the result of the emission
    and the listeners after it are not called into the result. *)
Theorem emit_stops_at_first_failure clk ch (ev ev' : Event.t) (w w1 : W)
    (pre post : list (Listener W)) l (e : exn) :
  stamp clk ev = Ok ev' ->
  emit_order ch = pre ++ l :: post ->
  call_all pre ev' w = Ok w1 ->
  call l ev' w1 = Raise e ->
  emit clk ch ev w = Raise e.
Proof.
  intros Hstamp Horder Hpre Hl. unfold emit. rewrite Hstamp. simpl.
  rewrite emit_buckets_call_all.
  change (concat (sorted_by_name <$> listeners ch)) with (emit_order ch).
  rewrite Horder, call_all_app, Hpre.
  simpl. by rewrite Hl.
Qed.

Lemma concat_sorted_perm (bs : list (list (Listener W))) :
  concat (sorted_by_name <$> bs) ≡ₚ concat bs.
Proof.
  induction bs as [|b r IH]; simpl; [done|]. by rewrite sorted_by_name_perm, IH.
Qed.

Lemma concat_alter_snoc (bs : list (list (Listener W))) (k : nat) l :
  k < length bs -> concat (alter (fun b => b ++ [l]) k bs) ≡ₚ l :: concat bs.
Proof.
  revert k. induction bs as [|b r IH]; intros k Hk; simpl in Hk; [lia|].
  destruct k as [|k].
  - change (alter (fun b => b ++ [l]) 0 (b :: r)) with ((b ++ [l]) :: r).
    cbn [concat]. rewrite <- app_assoc. simpl. by rewrite <- Permutation_middle.
  - change (alter (fun b => b ++ [l]) (S k) (b :: r))
      with (b :: alter (fun b => b ++ [l]) k r).
    cbn [concat]. rewrite IH by lia. by rewrite <- Permutation_middle.
Qed.

Lemma find_store_channel_ne nm nm' ch (cs : list (string * EventChannel W)) :
  nm' <> nm -> find_channel nm' (store_channel nm ch cs) = find_channel nm' cs.
Proof.
  intros Hne. induction cs as [|[k c0] r IH]; simpl.
  - by destruct (String.eqb_spec nm nm').
  - destruct (String.eqb_spec k nm) as [->|Hk]; simpl.
    + by destruct (String.eqb_spec nm nm').
    + by rewrite IH.
Qed.

Lemma find_channel_snoc_ne nm nm' ch (cs : list (string * EventChannel W)) :
  nm' <> nm -> find_channel nm' (cs ++ [(nm, ch)]) = find_channel nm' cs.
Proof.
  intros Hne. induction cs as [|[k c0] r IH]; simpl.
  - by destruct (String.eqb_spec nm nm').
  - by rewrite IH.
Qed.

(** X18. A registration that returns adds exactly one call to the emissions
    of its channel, also when the listener is registered already, and
    leaves every other channel as it is. *)
Theorem register_adds_one_call m (nm : string) l (p : Z) m' :
  register_listener m nm l p = Ok m' ->
  emit_order (snd (channel m' nm)) ≡ₚ l :: emit_order (snd (channel m nm)) /\
  forall nm', nm' <> nm ->
    find_channel nm' (event_types m') = find_channel nm' (event_types m).
Proof.
  intros Hreg. split.
  - destruct (register_listener_buckets _ _ _ _ _ Hreg) as (k & Hk & Hb & _).
    unfold emit_order. fold (buckets m' nm). fold (buckets m nm).
    rewrite Hb, !concat_sorted_perm. apply concat_alter_snoc. by eapply py_index_lt.
  - intros nm' Hne. revert Hreg. unfold register_listener, channel.
    destruct (find_channel nm (event_types m)) as [ch|]; simpl.
    + destruct (py_index _ p); simpl; try done. intros [= <-]. simpl.
      by apply find_store_channel_ne.
    + destruct (py_index _ p); simpl; try done. intros [= <-]. simpl.
      rewrite find_store_channel_ne by done. by apply find_channel_snoc_ne.
Qed.

Lemma find_channel_None nm (cs : list (string * EventChannel W)) :
  find_channel nm cs = None <-> nm ∉ map fst cs.
Proof.
  induction cs as [|[k c0] r IH]; simpl.
  - split; [intros _; apply not_elem_of_nil|done].
  - rewrite not_elem_of_cons. destruct (String.eqb_spec k nm) as [->|Hne].
    + split; [done|]. by intros [? _].
    + rewrite IH. split; [by intros ?; split|by intros [_ ?]].
Qed.

Lemma keys_store_channel nm ch (cs : list (string * EventChannel W)) :
  nm ∈ map fst cs -> map fst (store_channel nm ch cs) = map fst cs.
Proof.
  induction cs as [|[k c0] r IH]; simpl; [by intros ?%elem_of_nil|].
  destruct (String.eqb_spec k nm) as [->|Hne]; [done|].
  intros [?|Hin]%elem_of_cons; [congruence|]. simpl. by rewrite IH.
Qed.

Lemma list_events_channel m nm :
  list_events (fst (channel m nm)) =
    if decide (nm ∈ list_events m) then list_events m else list_events m ++ [nm].
Proof.
  unfold channel, list_events.
  destruct (find_channel nm (event_types m)) as [ch|] eqn:Hf; simpl.
  - rewrite decide_True; [done|].
    destruct (decide (nm ∈ map fst (event_types m))) as [|Hn]; [done|].
    apply find_channel_None in Hn. congruence.
  - rewrite decide_False by (by apply find_channel_None). by rewrite map_app.
Qed.

(** X19. Obtaining an emitter and registering a listener create the channel
    of a name that has none, at the end of [list_events], and never remove
    or repeat a name: the names listed stay distinct. *)
Theorem list_events_grows m (nm : string) :
  list_events (fst (get_emitter m nm)) =
    (if decide (nm ∈ list_events m) then list_events m else list_events m ++ [nm]) /\
  (forall l p m', register_listener m nm l p = Ok m' ->
     list_events m' =
       if decide (nm ∈ list_events m) then list_events m else list_events m ++ [nm]) /\
  (NoDup (list_events m) -> NoDup (list_events (fst (get_emitter m nm)))).
Proof.
  split_and!.
  - apply list_events_channel.
  - intros l p m'. rewrite <- list_events_channel. unfold register_listener.
    destruct (channel m nm) as [m1 ch] eqn:Hch. simpl.
    destruct (py_index _ p); simpl; try done. intros [= <-].
    unfold list_events. simpl. apply keys_store_channel.
    change (nm ∈ list_events m1).
    assert (m1 = fst (channel m nm)) as -> by (by rewrite Hch).
    rewrite list_events_channel. destruct (decide (nm ∈ list_events m)); [done|].
    apply elem_of_app. right. apply list_elem_of_here.
  - intros Hnd. simpl. rewrite list_events_channel.
    destruct (decide (nm ∈ list_events m)) as [|Hn]; [done|].
    apply NoDup_app. split_and!; [done| |apply NoDup_singleton].
    intros x Hx ->%list_elem_of_singleton. done.
Qed.

Lemma ten_buckets_channel m nm : ten_buckets m -> ten_buckets (fst (channel m nm)).
Proof.
  unfold ten_buckets, channel. intros Hten.
  destruct (find_channel nm (event_types m)); simpl; [done|].
  apply Forall_app. split; [done|]. by repeat constructor.
Qed.

(** X20. Every channel has ten buckets in every state of a manager: a new
    manager has no channel, and [setup], [get_emitter] and any sequence of
    registrations that returns keep the property. *)
Theorem ten_buckets_kept :
  ten_buckets (@manager_init W) /\
  forall m, ten_buckets m ->
    (forall c, ten_buckets (setup m c)) /\
    (forall nm, ten_buckets (fst (get_emitter m nm))) /\
    (forall nm regs m', register_all m nm regs = Ok m' -> ten_buckets m').
Proof.
  split; [apply ten_buckets_init|]. intros m Hten. split_and!.
  - done.
  - intros nm. by apply ten_buckets_channel.
  - intros nm regs. revert m Hten. induction regs as [|[p l] r IH]; intros m Hten m'; simpl.
    + by intros [= <-].
    + destruct (register_listener m nm l p) as [m1| |] eqn:Hreg; simpl; [|done..].
      apply IH. by eapply ten_buckets_register.
Qed.


(** X22. An emission needs the clock only for events that have a [time]
    attribute: on a manager that was not set up the emitter raises
    [AttributeError] for such an event, whatever the listeners, while an
    event-shaped object without [time] is handed to the listeners as it
    is. *)
Theorem emit_needs_clock :
  (forall m nm (ev : Event.t) (w : W),
      clock m = None -> is_Some (Event.time ev) ->
      call_emitter (fst (get_emitter m nm)) (snd (get_emitter m nm)) ev w =
        Raise AttributeError) /\
  (forall clk ch (ev : Event.t) (w : W),
      Event.time ev = None ->
      emit clk ch ev w = (w' ← call_all (emit_order ch) ev w; Ok (ev, w'))).
Proof.
  split.
  - intros m nm ev w Hclk [tm Htm]. unfold get_emitter, call_emitter, channel. simpl.
    destruct (find_channel nm (event_types m)) as [ch|] eqn:Hf; simpl.
    + rewrite Hf. unfold emit, stamp. by rewrite Htm, Hclk.
    + rewrite (find_channel_snoc _ _ _ Hf). unfold emit, stamp. by rewrite Htm, Hclk.
  - intros clk ch ev w Htm. unfold emit, stamp. rewrite Htm. simpl.
    by rewrite emit_buckets_call_all.
Qed.

End Dispatch.

(** ** Witnesses of the further properties *)

(** Witness of X1: the record of "base" in the scenario node. *)
Lemma metadata_records_witness :
  ConfigNode.mkrecord "base" (VInt 1) (Some "defaults") true ∈
    ConfigNode.metadata
      (ConfigNode.mk ["override"; "base"]
         (<["override" := (Some "cli", VInt 2)]>
            (<["base" := (Some "defaults", VInt 1)]> ∅)) false) /\
  "base" ∈ ["override"; "base"] /\
  (<["override" := (Some "cli", VInt 2)]>
     (<["base" := (Some "defaults", VInt 1)]> (∅ : gmap string ConfigNode.entry)))
    !! "base" = Some (Some "defaults", VInt 1) /\
  true = bool_decide (Some "base" = last ["override"; "base"]).
Proof.
  assert (ConfigNode.mkrecord "base" (VInt 1) (Some "defaults") true ∈
            ConfigNode.metadata
              (ConfigNode.mk ["override"; "base"]
                 (<["override" := (Some "cli", VInt 2)]>
                    (<["base" := (Some "defaults", VInt 1)]> ∅)) false)) as Hin.
  { vm_compute. apply list_elem_of_further, list_elem_of_here. }
  split; [exact Hin|].
  exact (proj2 (metadata_records _) _ Hin).
Defined.

(** Witness of X6: the entry of "override" of the scenario node. *)
Lemma node_reset_layer_once_witness :
  exists n',
    ConfigNode.reset_layer
      (ConfigNode.mk ["override"; "base"]
         (<["override" := (Some "cli", VInt 2)]> ∅) false) "override" = Ok n' /\
    ConfigNode.values n' = delete "override" (<["override" := (Some "cli", VInt 2)]> ∅) /\
    ConfigNode.layers n' = ["override"; "base"] /\
    ConfigNode.frozen n' = false /\
    ConfigNode.reset_layer n' "override" = Raise KeyError.
Proof.
  exists (ConfigNode.mk ["override"; "base"]
            (delete "override" (<["override" := (Some "cli", VInt 2)]> ∅)) false).
  split; [vm_compute; reflexivity|].
  refine (proj2 (node_reset_layer_once
                   (ConfigNode.mk ["override"; "base"]
                      (<["override" := (Some "cli", VInt 2)]> ∅) false) "override")
            (ConfigNode.mk ["override"; "base"]
               (delete "override" (<["override" := (Some "cli", VInt 2)]> ∅)) false) _).
  vm_compute. reflexivity.
Defined.

(** Witness of X7: a first write of "rate" on a new tree. *)
Lemma write_keeps_other_names_witness :
  exists h' x',
    ConfigTree.set_with_metadata (VInt 3) [["base"]] (ConfigTree.mk 0 [] false)
      "rate" None None = Ok (h', x') /\
    ConfigTree.frozen (ConfigTree.mk 0 [] false) = false /\
    map fst (ConfigTree.children x') =
      (if ConfigTree.contains (ConfigTree.mk 0 [] false) "rate"
       then map fst (ConfigTree.children (ConfigTree.mk 0 [] false))
       else map fst (ConfigTree.children (ConfigTree.mk 0 [] false)) ++ ["rate"]) /\
    ConfigTree.len x' =
      (if ConfigTree.contains (ConfigTree.mk 0 [] false) "rate"
       then ConfigTree.len (ConfigTree.mk 0 [] false)
       else S (ConfigTree.len (ConfigTree.mk 0 [] false))) /\
    ConfigTree.contains x' "rate" = true /\
    (forall k', k' <> "rate" ->
       ConfigTree.lookup k' (ConfigTree.children x') =
       ConfigTree.lookup k' (ConfigTree.children (ConfigTree.mk 0 [] false))) /\
    ConfigTree.layers x' = ConfigTree.layers (ConfigTree.mk 0 [] false).
Proof.
  exists [["base"]],
         (ConfigTree.mk 0
            [("rate", ConfigTree.Node
                        (ConfigNode.mk ["base"] (<["base" := (None, VInt 3)]> ∅) false))]
            false).
  split; [vm_compute; reflexivity|].
  apply (write_keeps_other_names (VInt 3) [["base"]] (ConfigTree.mk 0 [] false)
           "rate" None None [["base"]]).
  vm_compute. reflexivity.
Defined.

(** Witness of X9: a mapping loaded into the scenario tree. *)
Lemma read_dict_merges_witness :
  exists h' x',
    ConfigTree.read_dict [("y", VInt 7)] [["override"; "base"]] scenario_root
      None None = Ok (h', x') /\
    (exists t, h' = [["override"; "base"]] ++ t) /\
    ConfigTree.layers x' = ConfigTree.layers scenario_root /\
    (forall k', k' ∉ map fst [("y", VInt 7)] ->
       ConfigTree.lookup k' (ConfigTree.children x') =
       ConfigTree.lookup k' (ConfigTree.children scenario_root)) /\
    (forall k, k ∈ map fst [("y", VInt 7)] -> ConfigTree.contains x' k = true).
Proof.
  exists [["override"; "base"]],
         (ConfigTree.mk 0
            (ConfigTree.children scenario_root ++
             [("y", ConfigTree.Node
                      (ConfigNode.mk ["override"; "base"]
                         (<["base" := (None, VInt 7)]> ∅) false))])
            false).
  split; [vm_compute; reflexivity|].
  apply (read_dict_merges [("y", VInt 7)] [["override"; "base"]] scenario_root None None).
  vm_compute. reflexivity.
Defined.

(** Witness of X12: the child tree "a" of [shared_root]. *)
Lemma metadata_errors_witness :
  ConfigTree.metadata shared_root (Some "a") = Raise AttributeError.
Proof.
  apply (proj1 (proj2 (metadata_errors shared_root)) "a"
           (ConfigTree.mk 0
              [("b", ConfigTree.Node
                       (ConfigNode.mk ["base"; "clinical"]
                          (<["clinical" := (None, VInt 2)]>
                             (<["base" := (None, VInt 1)]> ∅)) false))] false)).
  reflexivity.
Defined.

(** Witness of X15: the name "y" has no child in the frozen scenario
    tree. *)
Lemma frozen_reads_witness :
  ConfigTree.get_from_layer [["override"; "base"]] (ConfigTree.freeze scenario_root)
    "y" None = Raise KeyError.
Proof.
  apply (proj2 (proj2 (frozen_reads scenario_root)) [["override"; "base"]] []
           (ConfigTree.freeze scenario_root) "y" None); reflexivity.
Defined.

(** Witness of X17: the second of three listeners raises. *)
Lemma emit_stops_at_first_failure_witness :
  emit (Some (fun _ => 7%Z))
       (mkChannel [[quiet "a" 0; mkListener "b" 1 (fun _ _ => Raise ValueError);
                    quiet "c" 2]])
       (Event.init [] (VDict [])) tt = Raise ValueError.
Proof.
  apply (emit_stops_at_first_failure (Some (fun _ => 7%Z)) _ (Event.init [] (VDict []))
           (Event.mk [] (VDict []) (Some (Some 7%Z))) tt tt
           [quiet "a" 0] [quiet "c" 2] (mkListener "b" 1 (fun _ _ => Raise ValueError))
           ValueError); reflexivity.
Defined.

(** Witness of X18: the same listener registered twice. *)
Lemma register_adds_one_call_witness :
  exists m1 m2,
    register_listener manager_init "time_step" (quiet "f" 0) 5 = Ok m1 /\
    register_listener m1 "time_step" (quiet "f" 0) 5 = Ok m2 /\
    emit_order (snd (channel m2 "time_step")) ≡ₚ
      quiet "f" 0 :: emit_order (snd (channel m1 "time_step")) /\
    forall nm', nm' <> "time_step" ->
      find_channel nm' (event_types m2) = find_channel nm' (event_types m1).
Proof.
  eexists _, _. split; [reflexivity|]. split; [reflexivity|].
  apply (register_adds_one_call _ "time_step" (quiet "f" 0) 5). reflexivity.
Defined.

(** Witness of X19: the first emitter of a new manager. *)
Lemma list_events_grows_witness :
  NoDup (list_events (fst (get_emitter (@manager_init unit) "time_step"))).
Proof.
  apply (proj2 (proj2 (list_events_grows (@manager_init unit) "time_step"))).
  apply NoDup_nil_2.
Defined.

(** Witness of X20: two registrations on a new manager. *)
Lemma ten_buckets_kept_witness :
  exists m',
    register_all manager_init "time_step" [(5%Z, quiet "f" 0); ((-1)%Z, quiet "g" 1)] = Ok m' /\
    ten_buckets m'.
Proof.
  eexists. split; [reflexivity|].
  apply (proj2 (proj2 (proj2 (@ten_buckets_kept unit) manager_init
                         (proj1 (@ten_buckets_kept unit))))
           "time_step" [(5%Z, quiet "f" 0); ((-1)%Z, quiet "g" 1)]).
  reflexivity.
Defined.


(** Witness of X22: an emission on a manager that was not set up. *)
Lemma emit_needs_clock_witness :
  call_emitter (fst (get_emitter (@manager_init unit) "time_step"))
               (snd (get_emitter (@manager_init unit) "time_step"))
               (Event.init [] (VDict [])) tt = Raise AttributeError.
Proof.
  apply (proj1 (@emit_needs_clock unit) manager_init "time_step"); [reflexivity|].
  by eexists.
Defined.
